(** * Diab1Care: the Nightscout glucose chart script (streamlit_app.py)

    A shallow embedding of the data path of the script: the JSON entries
    returned by the Nightscout API are loaded into a pandas DataFrame,
    sorted by time, grouped by calendar date, differenced and smoothed per
    day, and summarised.

    Conventions.
    - A DataFrame cell that pandas holds as NaN / NaT is [None].
    - Numeric cells are exact rationals.  The script computes in float64;
      for integer glucose values the differences, window sums and divisions
      by 4 are dyadic and exact, so both agree.
    - A calendar date (datetime.date) is represented by its day number
      relative to 1970-01-01, which orders dates as Python does. *)

From Stdlib Require Import ZArith QArith Lia.
From stdpp Require Import base list sorting strings.

Open Scope Z_scope.

(** ** Cells and arithmetic with missing values *)

Abbreviation cell := (option Q).

(** Subtraction of two cells: NaN on either side gives NaN. *)
Definition cell_sub (x y : cell) : cell :=
  match x, y with
  | Some a, Some b => Some (Qred (a - b))
  | _, _ => None
  end.

Definition Qsum (l : list Q) : Q := foldr Qplus 0%Q l.

(** ** Series.diff()

    [diff xs] is [xs - xs.shift(1)]: position 0 has no predecessor. *)

Fixpoint diff_from (prev : cell) (xs : list cell) : list cell :=
  match xs with
  | [] => []
  | x :: xs' => cell_sub x prev :: diff_from x xs'
  end.

Definition diff (xs : list cell) : list cell :=
  match xs with
  | [] => []
  | x :: xs' => None :: diff_from x xs'
  end.

(** ** Series.rolling(window=w).mean()

    With the default [min_periods = window], the value at position [i] is
    the mean of the [w] cells ending at [i], and it is NaN unless the window
    is complete and none of its cells is NaN. *)

Definition all_obs (win : list cell) : option (list Q) := mapM id win.

Definition window_mean (w : nat) (win : list cell) : cell :=
  if decide (length win = w) then
    match all_obs win with
    | Some qs => Some (Qred (Qsum qs / inject_Z (Z.of_nat w)))
    | None => None
    end
  else None.

Definition rolling_window (w : nat) (xs : list cell) (i : nat) : list cell :=
  if decide (w ≤ S i)%nat then take w (drop (S i - w) xs) else [].

Definition rolling_mean (w : nat) (xs : list cell) : list cell :=
  (λ i, window_mean w (rolling_window w xs i)) <$> seq 0 (length xs).

(** ** The per-day derived columns (lines 143-162 of the script) *)

Definition sgv_diff (sgv : list cell) : list cell := diff sgv.
Definition sgv_diff_smooth (sgv : list cell) : list cell :=
  rolling_mean 4 (sgv_diff sgv).
Definition sgv_diff2 (sgv : list cell) : list cell :=
  diff (sgv_diff_smooth sgv).
Definition sgv_diff2_smooth (sgv : list cell) : list cell :=
  rolling_mean 4 (sgv_diff2 sgv).

(** An integer column, as pandas reads JSON integers. *)
Definition int_column (vs : list Z) : list cell := (λ v, Some (inject_Z v)) <$> vs.

(** A column of JSON integers with missing cells, cast to float64. *)
Definition float_column (vs : list (option Z)) : list cell :=
  (λ c : option Z, inject_Z <$> c) <$> vs.

(** ** Entries and frames

    An entry is one JSON object of the response.  Only the keys [date]
    (epoch milliseconds) and [sgv] (glucose value) are read; either may be
    absent. *)

Record entry := Entry { e_date : option Z; e_sgv : option Z }.

(** A DataFrame: the index labels and the columns the script touches.  A
    column that does not exist is [None] (reading it raises KeyError); a
    cell that is NaN / NaT is [None] inside the column. *)

Record frame := Frame {
  index : list nat;
  col_date : option (list (option Z));
  col_dateTime : option (list (option Z));
  col_sgv : option (list (option Z));
  col_sgv_diff : option (list cell);
  col_sgv_diff_smooth : option (list cell);
  col_sgv_diff2 : option (list cell);
  col_sgv_diff2_smooth : option (list cell) }.

Inductive column_name :=
  c_date | c_dateTime | c_sgv | c_sgv_diff | c_sgv_diff_smooth
| c_sgv_diff2 | c_sgv_diff2_smooth.

Inductive exn :=
| KeyError (c : column_name)
| OutOfBoundsDatetime
| NameError.

(** [pd.DataFrame(entries)]: one row per entry, labelled by its position;
    a column exists when at least one entry carries the key. *)

Definition json_column (f : entry → option Z) (entries : list entry)
  : option (list (option Z)) :=
  if existsb (λ e, bool_decide (is_Some (f e))) entries
  then Some (f <$> entries) else None.

Definition DataFrame (entries : list entry) : frame :=
  {| index := seq 0 (length entries);
     col_date := json_column e_date entries;
     col_dateTime := None;
     col_sgv := json_column e_sgv entries;
     col_sgv_diff := None; col_sgv_diff_smooth := None;
     col_sgv_diff2 := None; col_sgv_diff2_smooth := None |}.

(** [pd.to_datetime(col, unit='ms')]: the instant stays a count of
    milliseconds; NaN becomes NaT; an instant outside the datetime64[ns]
    range raises. *)

Definition datetime_bound_ms : Z := 9223372036854.

Definition to_datetime (col : list (option Z)) : exn + list (option Z) :=
  if forallb (λ c, match c with
                   | Some t => bool_decide (- datetime_bound_ms ≤ t ≤ datetime_bound_ms)
                   | None => true
                   end) col
  then inr col else inl OutOfBoundsDatetime.

(** [Series.dt.date]: the calendar date of a naive (UTC) timestamp, as a
    day number. *)

Definition ms_per_day : Z := 86400000.
Definition dt_date (col : list (option Z)) : list (option Z) :=
  (λ c : option Z, (λ t, t `div` ms_per_day) <$> c) <$> col.

(** Row selection by position ([DataFrame.take]). *)

Definition take_rows {A} (indexer : list nat) (col : list A) : list A :=
  omap (λ i, col !! i) indexer.

Definition take_frame (indexer : list nat) (df : frame) : frame :=
  {| index := take_rows indexer (index df);
     col_date := take_rows indexer <$> col_date df;
     col_dateTime := take_rows indexer <$> col_dateTime df;
     col_sgv := take_rows indexer <$> col_sgv df;
     col_sgv_diff := take_rows indexer <$> col_sgv_diff df;
     col_sgv_diff_smooth := take_rows indexer <$> col_sgv_diff_smooth df;
     col_sgv_diff2 := take_rows indexer <$> col_sgv_diff2 df;
     col_sgv_diff2_smooth := take_rows indexer <$> col_sgv_diff2_smooth df |}.

(** Positions of the cells that satisfy a test. *)
Definition positions {A} (P : A → Prop) `{!∀ x, Decision (P x)} (col : list A)
  : list nat :=
  filter (λ i, from_option (λ x, bool_decide (P x)) false (col !! i))
         (seq 0 (length col)).

(** ** Grouping

    [df.groupby('date')] with the defaults [sort=True, dropna=True]: one
    group per distinct non-missing key, keys ascending, each group holding
    the rows of its key in frame order. *)

Fixpoint insert_key (k : Z) (ks : list Z) : list Z :=
  match ks with
  | [] => [k]
  | k' :: ks' =>
      if decide (k < k') then k :: ks
      else if decide (k = k') then ks
      else k' :: insert_key k ks'
  end.

Definition group_keys (col : list (option Z)) : list Z :=
  foldr insert_key [] (omap id col).

Definition group_positions (col : list (option Z)) (k : Z) : list nat :=
  positions (λ c : option Z, c = Some k) col.

Definition groupby_date (df : frame) : exn + list (Z * frame) :=
  match col_date df with
  | Some col =>
      inr ((λ k, (k, take_frame (group_positions col k) df)) <$> group_keys col)
  | None => inl (KeyError c_date)
  end.

(** ** Statistics of a column ([skipna=True]) *)

Definition observations (col : list (option Z)) : list Z := omap id col.

Definition series_min (col : list (option Z)) : option Z :=
  match observations col with
  | [] => None
  | x :: xs => Some (foldr Z.min x xs)
  end.

Definition series_max (col : list (option Z)) : option Z :=
  match observations col with
  | [] => None
  | x :: xs => Some (foldr Z.max x xs)
  end.

Definition Zsum (l : list Z) : Z := foldr Z.add 0 l.

Definition series_mean (col : list (option Z)) : option Q :=
  match observations col with
  | [] => None
  | xs => Some (Qred (inject_Z (Zsum xs) / inject_Z (Z.of_nat (length xs))))
  end.

(** Sample variance ([ddof=1]): pandas averages, sums the squared
    deviations and divides by [count - 1]; fewer than two observations
    give NaN.  [Series.std()] is its square root. *)

Definition series_var (col : list (option Z)) : option Q :=
  let xs := observations col in
  if decide (length xs ≤ 1)%nat then None
  else
    let count := inject_Z (Z.of_nat (length xs)) in
    let avg := (inject_Z (Zsum xs) / count)%Q in
    let sqr := Qsum ((λ x, (avg - inject_Z x) * (avg - inject_Z x))%Q <$> xs) in
    Some (Qred (sqr / (count - 1))).

(** Rendering with [:.2f], in hundredths.  A value exactly half way
    between two hundredths is rounded to the even one here; the script
    rounds the float64 nearest to the value. *)

Definition fmt_2f (q : Q) : Z :=
  let n := Qnum q * 100 in
  let d := Z.pos (Qden q) in
  let lo := n `div` d in
  let r2 := 2 * (n `mod` d) in
  if decide (r2 < d) then lo
  else if decide (d < r2) then lo + 1
  else if Z.even lo then lo else lo + 1.

(** The square root of a non-negative rational, rendered with [:.2f]:
    the integer [k] nearest to [100 * sqrt q]. *)

Definition fmt_2f_sqrt (q : Q) : Z :=
  (Z.sqrt ((40000 * Qnum q) `div` Z.pos (Qden q)) + 1) `div` 2.

(** ** NumPy's indirect quicksort

    With [kind='quicksort'] the argsort of a datetime64 array is NumPy's
    [aquicksort] (numpy/_core/src/npysort/quicksort.cpp and heapsort.cpp,
    which are not part of this repository and are transcribed here): an
    introsort on the array [tosort] of positions, with a median-of-three
    partition for ranges of more than 17 cells, insertion sort below, and
    heapsort once the depth budget is spent.  Pointers into [tosort] are
    offsets; loops carry fuel bounded by the array length. *)

Module numpy.

Definition SMALL_QUICKSORT : Z := 16.

Definition at_ (tosort : list nat) (p : Z) : nat := tosort !!! Z.to_nat p.
Definition put (tosort : list nat) (p : Z) (x : nat) : list nat :=
  <[Z.to_nat p := x]> tosort.
Definition key (v : list Z) (tosort : list nat) (p : Z) : Z := v !!! at_ tosort p.

Definition INTP_SWAP (tosort : list nat) (p q : Z) : list nat :=
  put (put tosort p (at_ tosort q)) q (at_ tosort p).

Definition swap_if_less (v : list Z) (tosort : list nat) (p q : Z) : list nat :=
  if bool_decide (key v tosort p < key v tosort q) then INTP_SWAP tosort p q
  else tosort.

(** [do ++pi; while (v[*pi] < vp)] *)
Fixpoint scan_up (fuel : nat) (v : list Z) (tosort : list nat) (vp pi : Z) : Z :=
  match fuel with
  | O => pi
  | S fuel' =>
      let pi := pi + 1 in
      if bool_decide (key v tosort pi < vp) then scan_up fuel' v tosort vp pi
      else pi
  end.

(** [do --pj; while (vp < v[*pj])] *)
Fixpoint scan_down (fuel : nat) (v : list Z) (tosort : list nat) (vp pj : Z) : Z :=
  match fuel with
  | O => pj
  | S fuel' =>
      let pj := pj - 1 in
      if bool_decide (vp < key v tosort pj) then scan_down fuel' v tosort vp pj
      else pj
  end.

Fixpoint partition_loop (fuel : nat) (v : list Z) (tosort : list nat)
    (vp pi pj : Z) : list nat * Z :=
  match fuel with
  | O => (tosort, pi)
  | S fuel' =>
      let pi := scan_up (length tosort) v tosort vp pi in
      let pj := scan_down (length tosort) v tosort vp pj in
      if bool_decide (pj ≤ pi) then (tosort, pi)
      else partition_loop fuel' v (INTP_SWAP tosort pi pj) vp pi pj
  end.

(** One round of [while ((pr - pl) > SMALL_QUICKSORT)]: returns the
    array and the position of the pivot. *)
Definition partition (v : list Z) (tosort : list nat) (pl pr : Z) : list nat * Z :=
  let pm := pl + (pr - pl) `div` 2 in
  let tosort := swap_if_less v tosort pm pl in
  let tosort := swap_if_less v tosort pr pm in
  let tosort := swap_if_less v tosort pm pl in
  let vp := key v tosort pm in
  let pj := pr - 1 in
  let tosort := INTP_SWAP tosort pm pj in
  let '(tosort, pi) := partition_loop (length tosort) v tosort vp pl pj in
  (INTP_SWAP tosort pi (pr - 1), pi).

(** The inner [while (pj > pl && vp < v[*pk])] of the insertion sort. *)
Fixpoint shift_right (fuel : nat) (v : list Z) (tosort : list nat)
    (vp pl pj : Z) : list nat * Z :=
  match fuel with
  | O => (tosort, pj)
  | S fuel' =>
      if bool_decide (pl < pj) && bool_decide (vp < key v tosort (pj - 1))
      then shift_right fuel' v (put tosort pj (at_ tosort (pj - 1))) vp pl (pj - 1)
      else (tosort, pj)
  end.

Fixpoint insertion_loop (fuel : nat) (v : list Z) (tosort : list nat)
    (pl pr pi : Z) : list nat :=
  match fuel with
  | O => tosort
  | S fuel' =>
      if bool_decide (pi ≤ pr) then
        let vi := at_ tosort pi in
        let vp := v !!! vi in
        let '(tosort, pj) := shift_right (length tosort) v tosort vp pl pi in
        insertion_loop fuel' v (put tosort pj vi) pl pr (pi + 1)
      else tosort
  end.

Definition insertion_sort (v : list Z) (tosort : list nat) (pl pr : Z) : list nat :=
  insertion_loop (length tosort) v tosort pl pr (pl + 1).

(** *** [aheapsort], on the [n] cells from [pl]; [a] is the 1-based view. *)

Definition a_get (tosort : list nat) (pl i : Z) : nat := at_ tosort (pl - 1 + i).
Definition a_put (tosort : list nat) (pl i : Z) (x : nat) : list nat :=
  put tosort (pl - 1 + i) x.

Fixpoint sift (fuel : nat) (v : list Z) (tosort : list nat)
    (pl n : Z) (tmp : nat) (i j : Z) : list nat :=
  match fuel with
  | O => a_put tosort pl i tmp
  | S fuel' =>
      if bool_decide (j ≤ n) then
        let j := if bool_decide (j < n)
                    && bool_decide (v !!! a_get tosort pl j < v !!! a_get tosort pl (j + 1))
                 then j + 1 else j in
        if bool_decide (v !!! tmp < v !!! a_get tosort pl j)
        then sift fuel' v (a_put tosort pl i (a_get tosort pl j)) pl n tmp j (j + j)
        else a_put tosort pl i tmp
      else a_put tosort pl i tmp
  end.

Fixpoint heapify (fuel : nat) (v : list Z) (tosort : list nat) (pl n l : Z)
  : list nat :=
  match fuel with
  | O => tosort
  | S fuel' =>
      if bool_decide (0 < l) then
        heapify fuel' v
          (sift (length tosort) v tosort pl n (a_get tosort pl l) l (2 * l))
          pl n (l - 1)
      else tosort
  end.

Fixpoint pop_max (fuel : nat) (v : list Z) (tosort : list nat) (pl n : Z)
  : list nat :=
  match fuel with
  | O => tosort
  | S fuel' =>
      if bool_decide (1 < n) then
        let tmp := a_get tosort pl n in
        let tosort := a_put tosort pl n (a_get tosort pl 1) in
        let n := n - 1 in
        pop_max fuel' v (sift (length tosort) v tosort pl n tmp 1 2) pl n
      else tosort
  end.

Definition aheapsort (v : list Z) (tosort : list nat) (pl n : Z) : list nat :=
  let tosort := heapify (length tosort) v tosort pl n (n `div` 2) in
  pop_max (length tosort) v tosort pl n.

(** *** The driver, with its explicit stack of pending ranges *)

Definition npy_get_msb (num : Z) : Z := Z.log2 num.

Record range := Range { r_pl : Z; r_pr : Z; r_depth : Z }.

Fixpoint partition_while (fuel : nat) (v : list Z) (tosort : list nat)
    (pl pr cdepth : Z) (stack : list range)
  : list nat * Z * Z * Z * list range :=
  match fuel with
  | O => (tosort, pl, pr, cdepth, stack)
  | S fuel' =>
      if bool_decide (SMALL_QUICKSORT < pr - pl) then
        let '(tosort, pi) := partition v tosort pl pr in
        let cdepth := cdepth - 1 in
        (* push the larger part, continue with the smaller *)
        if bool_decide (pi - pl < pr - pi)
        then partition_while fuel' v tosort pl (pi - 1) cdepth
               (Range (pi + 1) pr cdepth :: stack)
        else partition_while fuel' v tosort (pi + 1) pr cdepth
               (Range pl (pi - 1) cdepth :: stack)
      else (tosort, pl, pr, cdepth, stack)
  end.

Fixpoint driver (fuel : nat) (v : list Z) (tosort : list nat)
    (pl pr cdepth : Z) (stack : list range) : list nat :=
  match fuel with
  | O => tosort
  | S fuel' =>
      let '(tosort, stack) :=
        if bool_decide (cdepth < 0)
        then (aheapsort v tosort pl (pr - pl + 1), stack)
        else
          let '(tosort, pl, pr, _, stack) :=
            partition_while (length tosort) v tosort pl pr cdepth stack in
          (insertion_sort v tosort pl pr, stack) in
      match stack with
      | [] => tosort
      | r :: stack => driver fuel' v tosort (r_pl r) (r_pr r) (r_depth r) stack
      end
  end.

Definition aquicksort (v : list Z) : list nat :=
  let num := Z.of_nat (length v) in
  driver (S (length v)) v (seq 0 (length v)) 0 (num - 1) (npy_get_msb num * 2) [].

End numpy.

(** A merge sort of the positions by key, as [kind='mergesort'] would
    use; it serves as an instance of a routine that sorts. *)
Definition key_le (v : list Z) (i j : nat) : Prop := v !!! i ≤ v !!! j.

#[export] Instance key_le_dec v i j : Decision (key_le v i j).
Proof. unfold key_le. apply _. Defined.

Definition mergesort_argsort (v : list Z) : list nat :=
  merge_sort (key_le v) (seq 0 (length v)).

(** Another routine that sorts: a descending merge sort read backwards,
    which lists equal keys in the reverse of their original order. *)
Definition key_ge (v : list Z) (i j : nat) : Prop := v !!! j ≤ v !!! i.

#[export] Instance key_ge_dec v i j : Decision (key_ge v i j).
Proof. unfold key_ge. apply _. Defined.

Definition backwards_argsort (v : list Z) : list nat :=
  reverse (merge_sort (key_ge v) (seq 0 (length v))).

(** ** The user interface

    What the script shows: warnings, headings, charts (the x and y data
    handed to [ax.plot]), statistic lines and error messages.  Debugging
    [print]s go to the console and are left out. *)

Inductive chart := Glucose | FirstDerivative | SecondDerivative.
Inductive statistic := MinimumBG | MaximumBG | AverageBG | StandardDeviation.
Inductive shown := Plain (v : option Z) | TwoDecimals (hundredths : option Z).

Inductive ui_event :=
| st_warning
| st_subheader (c : chart) (d : Z)
| st_pyplot (c : chart) (x : list (option Z)) (y : list cell)
| st_subheader_statistics
| st_write (s : statistic) (v : shown)
| st_error (e : exn).

(** ** Script state and effects

    The script runs at module level: [df], [grouped], [date] and [group]
    are global names.  A statement may emit UI events, rebind names, and
    raise. *)

Record globals := Globals {
  v_df : option frame;
  v_grouped : option (list (Z * frame));
  v_date : option Z;
  v_group : option frame }.

Record outcome (A : Type) := Outcome {
  emitted : list ui_event;
  store : globals;
  result : exn + A }.
Arguments Outcome {A} _ _ _.
Arguments emitted {A} _.
Arguments store {A} _.
Arguments result {A} _.

Definition script (A : Type) : Type := globals → outcome A.

#[export] Instance script_ret : MRet script :=
  λ A (a : A) σ, Outcome [] σ (inr a).

#[export] Instance script_bind : MBind script :=
  λ A B (k : A → script B) (m : script A) σ,
    let o := m σ in
    match result o with
    | inl e => Outcome (emitted o) (store o) (inl e)
    | inr a =>
        let o' := k a (store o) in
        Outcome (emitted o ++ emitted o') (store o') (result o')
    end.

Definition emit (ev : ui_event) : script unit := λ σ, Outcome [ev] σ (inr ()).
Definition raise {A} (e : exn) : script A := λ σ, Outcome [] σ (inl e).
Definition lift {A} (r : exn + A) : script A :=
  match r with inl e => raise e | inr a => mret a end.

(** [try: body except Exception as err: handler(err)] *)
Definition try_except (body : script unit) (handler : exn → script unit)
  : script unit :=
  λ σ, let o := body σ in
       match result o with
       | inl e =>
           let o' := handler e (store o) in
           Outcome (emitted o ++ emitted o') (store o') (result o')
       | inr _ => o
       end.

(** Reading a global name; an unbound name raises NameError. *)
Definition load {A} (var : globals → option A) : script A :=
  λ σ, match var σ with
       | Some a => Outcome [] σ (inr a)
       | None => Outcome [] σ (inl NameError)
       end.

Definition bind_df (f : frame) : script unit :=
  λ σ, Outcome [] (Globals (Some f) (v_grouped σ) (v_date σ) (v_group σ)) (inr ()).
Definition bind_grouped (g : list (Z * frame)) : script unit :=
  λ σ, Outcome [] (Globals (v_df σ) (Some g) (v_date σ) (v_group σ)) (inr ()).
Definition bind_date (d : Z) : script unit :=
  λ σ, Outcome [] (Globals (v_df σ) (v_grouped σ) (Some d) (v_group σ)) (inr ()).
Definition bind_group (f : frame) : script unit :=
  λ σ, Outcome [] (Globals (v_df σ) (v_grouped σ) (v_date σ) (Some f)) (inr ()).

(** [frame[c]] *)
Definition getitem {A} (c : column_name) (col : option A) : script A :=
  match col with Some x => mret x | None => raise (KeyError c) end.

(** [frame[c] = values] *)
Definition set_date (f : frame) (v : list (option Z)) : frame :=
  Frame (index f) (Some v) (col_dateTime f) (col_sgv f) (col_sgv_diff f)
        (col_sgv_diff_smooth f) (col_sgv_diff2 f) (col_sgv_diff2_smooth f).
Definition set_dateTime (f : frame) (v : list (option Z)) : frame :=
  Frame (index f) (col_date f) (Some v) (col_sgv f) (col_sgv_diff f)
        (col_sgv_diff_smooth f) (col_sgv_diff2 f) (col_sgv_diff2_smooth f).
Definition set_sgv_diff (f : frame) (v : list cell) : frame :=
  Frame (index f) (col_date f) (col_dateTime f) (col_sgv f) (Some v)
        (col_sgv_diff_smooth f) (col_sgv_diff2 f) (col_sgv_diff2_smooth f).
Definition set_sgv_diff_smooth (f : frame) (v : list cell) : frame :=
  Frame (index f) (col_date f) (col_dateTime f) (col_sgv f) (col_sgv_diff f)
        (Some v) (col_sgv_diff2 f) (col_sgv_diff2_smooth f).
Definition set_sgv_diff2 (f : frame) (v : list cell) : frame :=
  Frame (index f) (col_date f) (col_dateTime f) (col_sgv f) (col_sgv_diff f)
        (col_sgv_diff_smooth f) (Some v) (col_sgv_diff2_smooth f).
Definition set_sgv_diff2_smooth (f : frame) (v : list cell) : frame :=
  Frame (index f) (col_date f) (col_dateTime f) (col_sgv f) (col_sgv_diff f)
        (col_sgv_diff_smooth f) (col_sgv_diff2 f) (Some v).

Fixpoint for_each {A} (body : A → script unit) (l : list A) : script unit :=
  match l with
  | [] => mret ()
  | a :: l' => body a;; for_each body l'
  end.

(** ** The script

    The argsort routine behind [sort_values] is a parameter of the
    model. *)

Section Script.
Variable argsort : list Z → list nat.

(** [df.sort_values('dateTime')] sorts one column with the default
    [kind='quicksort'] and [na_position='last']: pandas argsorts the
    non-missing keys and appends the positions of the missing ones. *)
Definition nargsort (keys : list (option Z)) : list nat :=
  let non_nan_idx := positions is_Some keys in
  let non_nans := omap id keys in
  let nan_idx := positions (λ c : option Z, c = None) keys in
  take_rows (argsort non_nans) non_nan_idx ++ nan_idx.

Definition sort_values_dateTime (df : frame) : exn + frame :=
  match col_dateTime df with
  | Some keys => inr (take_frame (nargsort keys) df)
  | None => inl (KeyError c_dateTime)
  end.

(** Lines 132-171: the body of [for date, group in grouped]. *)
Definition day_body (item : Z * frame) : script unit :=
  bind_date item.1;; bind_group item.2;;
  date ← load v_date;
  emit (st_subheader Glucose date);;
  group ← load v_group;
  x ← getitem c_dateTime (col_dateTime group);
  y ← getitem c_sgv (col_sgv group);
  emit (st_pyplot Glucose x (float_column y));;
  (* group['sgv_diff'] = group['sgv'].diff() *)
  group ← load v_group;
  y ← getitem c_sgv (col_sgv group);
  bind_group (set_sgv_diff group (diff (float_column y)));;
  (* group['sgv_diff_smooth'] = group['sgv_diff'].rolling(window=4).mean() *)
  group ← load v_group;
  d ← getitem c_sgv_diff (col_sgv_diff group);
  bind_group (set_sgv_diff_smooth group (rolling_mean 4 d));;
  date ← load v_date;
  emit (st_subheader FirstDerivative date);;
  group ← load v_group;
  x ← getitem c_dateTime (col_dateTime group);
  y ← getitem c_sgv_diff_smooth (col_sgv_diff_smooth group);
  emit (st_pyplot FirstDerivative x y);;
  (* group['sgv_diff2'] = group['sgv_diff_smooth'].diff() *)
  group ← load v_group;
  s ← getitem c_sgv_diff_smooth (col_sgv_diff_smooth group);
  bind_group (set_sgv_diff2 group (diff s));;
  (* group['sgv_diff2_smooth'] = group['sgv_diff2'].rolling(window=4).mean() *)
  group ← load v_group;
  d2 ← getitem c_sgv_diff2 (col_sgv_diff2 group);
  bind_group (set_sgv_diff2_smooth group (rolling_mean 4 d2));;
  date ← load v_date;
  emit (st_subheader SecondDerivative date);;
  group ← load v_group;
  x ← getitem c_dateTime (col_dateTime group);
  y ← getitem c_sgv_diff2_smooth (col_sgv_diff2_smooth group);
  emit (st_pyplot SecondDerivative x y).

(** Lines 173-178: the statistics panel. *)
Definition statistics_panel : script unit :=
  emit st_subheader_statistics;;
  df ← load v_df; sgv ← getitem c_sgv (col_sgv df);
  emit (st_write MinimumBG (Plain (series_min sgv)));;
  df ← load v_df; sgv ← getitem c_sgv (col_sgv df);
  emit (st_write MaximumBG (Plain (series_max sgv)));;
  df ← load v_df; sgv ← getitem c_sgv (col_sgv df);
  emit (st_write AverageBG (TwoDecimals (fmt_2f <$> series_mean sgv)));;
  df ← load v_df; sgv ← getitem c_sgv (col_sgv df);
  emit (st_write StandardDeviation (TwoDecimals (fmt_2f_sqrt <$> series_var sgv))).

(** Lines 116-130, statement by statement. *)

(** [df = pd.DataFrame(entries)] *)
Definition load_entries (entries : list entry) : script unit :=
  bind_df (DataFrame entries).

(** [df['dateTime'] = pd.to_datetime(df['date'], unit='ms')] *)
Definition assign_dateTime : script unit :=
  df ← load v_df;
  ms ← getitem c_date (col_date df);
  dateTime ← lift (to_datetime ms);
  bind_df (set_dateTime df dateTime).

(** [df = df.sort_values('dateTime')] *)
Definition sort_by_dateTime : script unit :=
  df ← load v_df;
  sorted ← lift (sort_values_dateTime df);
  bind_df sorted.

(** [df['date'] = df['dateTime'].dt.date] *)
Definition assign_date : script unit :=
  df ← load v_df;
  dateTime ← getitem c_dateTime (col_dateTime df);
  bind_df (set_date df (dt_date dateTime)).

(** [grouped = df.groupby('date')] *)
Definition group_by_date : script unit :=
  df ← load v_df;
  groups ← lift (groupby_date df);
  bind_grouped groups.

(** [for date, group in grouped: ...] *)
Definition plot_days : script unit :=
  grouped ← load v_grouped;
  for_each day_body grouped.

(** Lines 116-178: the branch taken for a non-empty response. *)
Definition process (entries : list entry) : script unit :=
  load_entries entries;;
  assign_dateTime;;
  sort_by_dateTime;;
  assign_date;;
  group_by_date;;
  plot_days;;
  statistics_panel.

(** Lines 101-183: what pressing the button does with a parsed response. *)
Definition fetch_glucose_data (entries : list entry) : script unit :=
  try_except
    (match entries with
     | [] => emit st_warning
     | _ => process entries
     end)
    (λ err, emit (st_error err)).

(** ** The stages as values

    The frame the script holds after line 129 (the Series: sorted, with
    its date column), the groups it iterates over, and what it shows for
    one group.  [process_run] below proves that the script computes
    exactly these. *)

Definition series_frame (entries : list entry) : exn + frame :=
  let df := DataFrame entries in
  match col_date df with
  | None => inl (KeyError c_date)
  | Some ms =>
      match to_datetime ms with
      | inl e => inl e
      | inr dateTime =>
          let sorted := take_frame (nargsort dateTime) (set_dateTime df dateTime) in
          inr (set_date sorted (dt_date (take_rows (nargsort dateTime) dateTime)))
      end
  end.

Definition sort_and_partition (entries : list entry) : exn + list (Z * frame) :=
  match series_frame entries with
  | inl e => inl e
  | inr df => groupby_date df
  end.

End Script.

(** The charts of one day, from the group's time and glucose columns. *)
Definition day_events (d : Z) (x : list (option Z)) (sgv : list (option Z))
  : list ui_event :=
  [ st_subheader Glucose d;
    st_pyplot Glucose x (float_column sgv);
    st_subheader FirstDerivative d;
    st_pyplot FirstDerivative x (sgv_diff_smooth (float_column sgv));
    st_subheader SecondDerivative d;
    st_pyplot SecondDerivative x (sgv_diff2_smooth (float_column sgv)) ].

Definition group_events (item : Z * frame) : list ui_event :=
  day_events item.1 (default [] (col_dateTime item.2)) (default [] (col_sgv item.2)).

Definition statistics_events (sgv : list (option Z)) : list ui_event :=
  [ st_subheader_statistics;
    st_write MinimumBG (Plain (series_min sgv));
    st_write MaximumBG (Plain (series_max sgv));
    st_write AverageBG (TwoDecimals (fmt_2f <$> series_mean sgv));
    st_write StandardDeviation (TwoDecimals (fmt_2f_sqrt <$> series_var sgv)) ].

(** The frame a group is left as once its four columns are assigned. *)
Definition with_derivatives (g : frame) (sgv : list (option Z)) : frame :=
  Frame (index g) (col_date g) (col_dateTime g) (col_sgv g)
        (Some (sgv_diff (float_column sgv)))
        (Some (sgv_diff_smooth (float_column sgv)))
        (Some (sgv_diff2 (float_column sgv)))
        (Some (sgv_diff2_smooth (float_column sgv))).

(** Everything one press of the button shows, as a function of the
    response alone ([fetch_run] proves the script emits exactly this). *)
Definition rendered (argsort : list Z → list nat) (entries : list entry)
  : list ui_event :=
  match entries with
  | [] => [st_warning]
  | _ =>
      match series_frame argsort entries with
      | inl e => [st_error e]
      | inr df =>
          match groupby_date df with
          | inl e => [st_error e]
          | inr groups =>
              match col_sgv df with
              | Some sgv => (groups ≫= group_events) ++ statistics_events sgv
              | None =>
                  match groups with
                  | [] => [st_subheader_statistics]
                  | item :: _ => [st_subheader Glucose item.1]
                  end ++ [st_error (KeyError c_sgv)]
              end
          end
      end
  end.

(** ** Intermediate values of a run *)

(** The global names after one pass of the loop body. *)
Definition rebind_day (σ : globals) (d : Z) (g : frame) : globals :=
  Globals (v_df σ) (v_grouped σ) (Some d) (Some g).

(** The global names after the loop: [df] and [grouped] as before,
    [date] and [group] left at the last day. *)
Definition last_day (σ : globals) (groups : list (Z * frame)) : globals :=
  match last groups with
  | Some (d, g) => rebind_day σ d (with_derivatives g (default [] (col_sgv g)))
  | None => σ
  end.

(** Sequencing after a statement that completes. *)
Definition prepend {A} (ev : list ui_event) (o : outcome A) : outcome A :=
  Outcome (ev ++ emitted o) (store o) (result o).

(** The frame after lines 116-129, given the converted date column. *)
Definition sorted_frame (argsort : list Z → list nat) (entries : list entry)
    (ms : list (option Z)) : frame :=
  set_date (take_frame (nargsort argsort ms) (set_dateTime (DataFrame entries) ms))
           (dt_date (take_rows (nargsort argsort ms) ms)).

(** Timestamps that [to_datetime] accepts. *)
Definition representable (entries : list entry) : Prop :=
  Forall (λ e, match e_date e with
               | Some t => - datetime_bound_ms ≤ t ≤ datetime_bound_ms
               | None => True
               end) entries.

(** The timestamps in sorted order, the number of rows without one, and
    the date column they give. *)
Definition sorted_timestamps (argsort : list Z → list nat) (entries : list entry)
  : list Z :=
  take_rows (argsort (omap e_date entries)) (omap e_date entries).
Definition missing_timestamps (entries : list entry) : nat :=
  length (positions (λ c : option Z, c = None) (e_date <$> entries)).
Definition sorted_dates (argsort : list Z → list nat) (entries : list entry)
  : list (option Z) :=
  (Some <$> ((λ t, t `div` ms_per_day) <$> sorted_timestamps argsort entries))
  ++ replicate (missing_timestamps entries) None.

(** ** Sample responses *)

Definition reading (t sgv : Z) : entry := Entry (Some t) (Some sgv).

(** Eighteen readings five minutes apart, newest first as Nightscout
    returns them; the entries at positions 3 and 4 carry the same
    timestamp. *)
Definition newest_first_with_tie : list entry :=
  [ reading 4800000 100; reading 4500000 101; reading 4200000 102;
    reading 3900000 103; reading 3900000 104; reading 3600000 105;
    reading 3300000 106; reading 3000000 107; reading 2700000 108;
    reading 2400000 109; reading 2100000 110; reading 1800000 111;
    reading 1500000 112; reading 1200000 113; reading 900000 114;
    reading 600000 115; reading 300000 116; reading 0 117 ].

(** Three readings over two days. *)
Definition two_days : list entry :=
  [reading 86400000 110; reading 0 100; reading 300000 105].



(** ** Reference notions used in the statements *)

(** What the script needs from the argsort routine, whichever sorting
    algorithm stands behind it: the positions of its argument, arranged
    so that the keys ascend. *)
Definition sorts (argsort : list Z → list nat) : Prop :=
  ∀ v, argsort v ≡ₚ seq 0 (length v) ∧ Sorted Z.le (take_rows (argsort v) v).

(** Stability of the sort: whenever two entries carry the same
    timestamp, the one that comes first in the response comes first in
    the sorted order of labels. *)
Definition keeps_tie_order (entries : list entry) (order : list nat) : Prop :=
  ∀ i j p q t,
    (i < j)%nat →
    e_date <$> entries !! i = Some (Some t) →
    e_date <$> entries !! j = Some (Some t) →
    order !! p = Some i → order !! q = Some j → (p < q)%nat.

(** The calendar date of an instant for an observer whose clock is
    [utc_offset_ms] ahead of UTC. *)
Definition local_date (utc_offset_ms : Z) (t : Z) : Z :=
  (t + utc_offset_ms) `div` ms_per_day.

(** An entry that carries both keys. *)
Definition well_formed (e : entry) : Prop := is_Some (e_date e) ∧ is_Some (e_sgv e).

#[export] Instance well_formed_dec e : Decision (well_formed e).
Proof. unfold well_formed. apply _. Defined.

(** ** The page around the processing

    Lines 18-99, 101-110 and 180-185 of the script: the sidebar inputs, the
    request headers, the query range, the validation behind the button, the
    request and the two exception handlers.  Calls that only lay out the
    page ([set_page_config], [title], [header]) and the debugging [print]s
    are left out. *)

(** The two options of the selectbox; the script's final [else: headers =
    {}] cannot be reached, since [st.sidebar.selectbox] returns one of its
    options. *)
Inductive auth_method := API_Secret | JWT_Token.

#[export] Instance auth_method_eq_dec : EqDecision auth_method.
Proof. solve_decision. Defined.

(** What the operator has entered: [secret_text] is the content of the one
    password field that is shown, and the dates are day numbers. *)
Record sidebar := Sidebar {
  base_url : string;
  auth_option : auth_method;
  secret_text : string;
  start_date : Z;
  end_date : Z;
  button : bool }.

(** Truth value of a Python string. *)
Definition truthy (s : string) : bool := bool_decide (s ≠ "").

(** Lines 35-52: only the name of the selected method is bound. *)
Record credentials := Credentials {
  api_secret : option string;
  jwt_token : option string;
  headers : list (string * string) }.

Definition read_credentials (inp : sidebar) : credentials :=
  match auth_option inp with
  | API_Secret =>
      Credentials (Some (secret_text inp)) None
        (if truthy (secret_text inp) then [("api-secret", secret_text inp)] else [])
  | JWT_Token =>
      Credentials None (Some (secret_text inp))
        (if truthy (secret_text inp)
         then [("Authorization", "Bearer " +:+ secret_text inp)] else [])
  end.

(** Reading a name that may be unbound. *)
Definition name (v : option string) : exn + string :=
  match v with Some s => inr s | None => inl NameError end.

(** [not v], for a name [v]. *)
Definition not_name (v : option string) : exn + bool :=
  match name v with inl e => inl e | inr s => inr (negb (truthy s)) end.

(** Lines 78-80, with Python's short-circuit [and] and [or]:
    [(auth_option == "API Secret" and not api_secret) or
     (auth_option == "JWT Token" and not jwt_token)]. *)
Definition credential_missing (a : auth_method) (c : credentials) : exn + bool :=
  match (if bool_decide (a = API_Secret) then not_name (api_secret c) else inr false) with
  | inl e => inl e
  | inr true => inr true
  | inr false =>
      if bool_decide (a = JWT_Token) then not_name (jwt_token c) else inr false
  end.

(** The GET request of line 103 and what comes back: no response at all
    ([requests.get] raises), or a status code with a body that parses to
    a list of entries or does not parse.  A body that parses to anything
    but a list of objects is outside the model, as is a date that
    [time.mktime] rejects. *)
Record request := Request {
  url : string;
  req_headers : list (string * string);
  find_date_gte : Z;
  find_date_lte : Z;
  find_type : string;
  count : Z }.

Inductive response :=
| NoResponse
| Response (status_code : Z) (json : option (list entry)).

Inductive failure := RequestFailed | NotJson.

Inductive page_event :=
| st_sidebar_error_url
| st_sidebar_error_credential (a : auth_method)
| http_get (r : request)
| st_error_http (status_code : Z)
| st_error_other (f : failure)
| st_info
| st_shown (ev : ui_event)
| uncaught (e : exn).

(** Each run of the script starts with no name bound. *)
Definition fresh : globals := Globals None None None None.

Section Page.
(** [time.mktime(d.timetuple())]: the epoch seconds of local midnight of
    day [d]; the transport; the sorting routine. *)
Variable mktime : Z → Z.
Variable requests_get : request → response.
Variable argsort : list Z → list nat.

(** Lines 66-67. *)
Definition start_date_unix (inp : sidebar) : Z := mktime (start_date inp) * 1000.
Definition end_date_unix (inp : sidebar) : Z := mktime (end_date inp) * 1000 + 86399999.

(** Lines 84-96. *)
Definition entries_request (inp : sidebar) : request :=
  {| url := base_url inp +:+ "/api/v1/entries.json";
     req_headers := headers (read_credentials inp);
     find_date_gte := start_date_unix inp;
     find_date_lte := end_date_unix inp;
     find_type := "sgv";
     count := 10000 |}.

(** Lines 101-183: [raise_for_status] raises HTTPError for a status from
    400 to 599, which the first handler reports; any other exception goes
    to the second handler. *)
Definition fetch (inp : sidebar) : list page_event :=
  let r := entries_request inp in
  http_get r ::
  match requests_get r with
  | NoResponse => [st_error_other RequestFailed]
  | Response code body =>
      if bool_decide (400 ≤ code < 600) then [st_error_http code]
      else
        match body with
        | None => [st_error_other NotJson]
        | Some entries =>
            st_shown <$> emitted (fetch_glucose_data argsort entries fresh)
        end
  end.

(** Lines 74-185. *)
Definition page (inp : sidebar) : list page_event :=
  if button inp then
    if negb (truthy (base_url inp)) then [st_sidebar_error_url]
    else
      match credential_missing (auth_option inp) (read_credentials inp) with
      | inl e => [uncaught e]
      | inr true => [st_sidebar_error_credential (auth_option inp)]
      | inr false => fetch inp
      end
  else [st_info].

End Page.

(** A time zone that keeps one offset from UTC, in seconds. *)
Definition mktime_fixed (utc_offset_s : Z) (day : Z) : Z := day * 86400 - utc_offset_s.

(** ** Reference notions for the charts *)

#[export] Instance chart_eq_dec : EqDecision chart.
Proof. solve_decision. Defined.

(** The vertical axis of a chart, from the day's glucose column. *)
Definition chart_values (c : chart) (sgv : list cell) : list cell :=
  match c with
  | Glucose => sgv
  | FirstDerivative => sgv_diff_smooth sgv
  | SecondDerivative => sgv_diff2_smooth sgv
  end.

(** The dates in the headings of one kind of chart, in the order shown. *)
Definition heading_dates (c : chart) (evs : list ui_event) : list Z :=
  omap (λ ev, match ev with
              | st_subheader c' d => if decide (c' = c) then Some d else None
              | _ => None
              end) evs.

(** ** The charts as a function of the sorted entries *)

(** The UTC date of an entry. *)
Definition day_of (e : entry) : option Z := (λ t, t `div` ms_per_day) <$> e_date e.

(** The entries that have a timestamp, in the order of the sorted frame. *)
Definition sorted_rows (argsort : list Z → list nat) (entries : list entry)
  : list entry :=
  take_rows (argsort (omap e_date entries)) (filter (λ e, is_Some (e_date e)) entries).

(** The rows of one date, and its three charts. *)
Definition rows_of_day (k : Z) (rows : list entry) : list entry :=
  filter (λ e, day_of e = Some k) rows.

Definition charts_of_day (rows : list entry) (k : Z) : list ui_event :=
  day_events k (e_date <$> rows_of_day k rows) (e_sgv <$> rows_of_day k rows).

#[export] Instance representable_dec entries : Decision (representable entries).
Proof.
  unfold representable. apply Forall_dec. intros e. destruct (e_date e); apply _.
Defined.


(** Entries dated within the range a request asks for. *)
Definition in_range (r : request) (entries : list entry) : Prop :=
  Forall (λ e, ∀ t, e_date e = Some t → find_date_gte r ≤ t ≤ find_date_lte r) entries.

(** ** Sample inputs *)

Definition sample_sidebar : sidebar :=
  {| base_url := "https://ns.example"; auth_option := JWT_Token;
     secret_text := "t0ken"; start_date := 0; end_date := 1; button := true |}.

(** A server that answers every request with the same status and list. *)
Definition serves (code : Z) (entries : list entry) : request → response :=
  λ _, Response code (Some entries).

(** * Facts about differencing and smoothing *)

Section Derivatives.
Implicit Types (xs win : list cell) (x y c : cell) (i w : nat).

Lemma length_diff_from prev xs : length (diff_from prev xs) = length xs.
Proof. revert prev. induction xs as [|x xs IH]; intros prev; simpl; [done|]. by rewrite IH. Qed.

Lemma length_diff xs : length (diff xs) = length xs.
Proof. destruct xs as [|x xs]; simpl; [done|]. by rewrite length_diff_from. Qed.

Lemma diff_from_lookup_0 prev xs x :
  xs !! 0%nat = Some x → diff_from prev xs !! 0%nat = Some (cell_sub x prev).
Proof. destruct xs as [|x' xs]; simpl; [done|]. by intros [= ->]. Qed.

Lemma diff_from_lookup_S prev xs i x y :
  xs !! i = Some y → xs !! S i = Some x →
  diff_from prev xs !! S i = Some (cell_sub x y).
Proof.
  revert prev i. induction xs as [|x0 xs IH]; intros prev i; [done|].
  destruct i as [|i]; simpl.
  - intros [= ->] Hx. by apply diff_from_lookup_0.
  - intros Hy Hx. by apply IH.
Qed.

Lemma diff_lookup_0 xs c : diff xs !! 0%nat = Some c → c = None.
Proof. destruct xs as [|x xs]; simpl; [done|]. by intros [= <-]. Qed.

Lemma diff_lookup_S xs i x y :
  xs !! i = Some y → xs !! S i = Some x → diff xs !! S i = Some (cell_sub x y).
Proof.
  destruct xs as [|x0 xs]; [done|]. destruct i as [|i]; simpl.
  - intros [= ->] Hx. by apply diff_from_lookup_0.
  - intros Hy Hx. by apply diff_from_lookup_S.
Qed.

Lemma length_rolling_mean w xs : length (rolling_mean w xs) = length xs.
Proof. unfold rolling_mean. by rewrite length_fmap, length_seq. Qed.

Lemma rolling_mean_lookup w xs i :
  (i < length xs)%nat →
  rolling_mean w xs !! i = Some (window_mean w (rolling_window w xs i)).
Proof.
  intros Hi. unfold rolling_mean. rewrite list_lookup_fmap, lookup_seq_lt; done.
Qed.

Lemma rolling_mean_lookup_inv w xs i c :
  rolling_mean w xs !! i = Some c →
  (i < length xs)%nat ∧ c = window_mean w (rolling_window w xs i).
Proof.
  intros H. assert (i < length xs)%nat as Hi.
  { apply lookup_lt_Some in H. by rewrite length_rolling_mean in H. }
  split; [done|]. rewrite rolling_mean_lookup in H by done. congruence.
Qed.

(** The window is incomplete before position [w - 1]. *)
Lemma window_mean_early w xs i :
  (0 < w)%nat → (S i < w)%nat → window_mean w (rolling_window w xs i) = None.
Proof.
  intros Hw Hi. unfold rolling_window. rewrite decide_False by lia.
  unfold window_mean. simpl. rewrite decide_False by lia. done.
Qed.

(** A NaN anywhere in the window makes the mean NaN. *)
Lemma window_mean_nan w win : None ∈ win → window_mean w win = None.
Proof.
  intros Hin. unfold window_mean. case_decide; [|done].
  destruct (all_obs win) as [qs|] eqn:E; [|done].
  unfold all_obs in E. apply mapM_Some in E.
  apply list_elem_of_lookup in Hin as [j Hj].
  destruct (Forall2_lookup_l _ _ _ _ _ E Hj) as (q & _ & Hq). done.
Qed.





Lemma cell_sub_nan_r x : cell_sub x None = None.
Proof. by destruct x. Qed.

(** A NaN cell makes every window that covers it NaN. *)
Lemma rolling_mean_nan w xs i j c :
  xs !! j = Some None → (j ≤ i < j + w)%nat →
  rolling_mean w xs !! i = Some c → c = None.
Proof.
  intros Hj Hij Hc. apply rolling_mean_lookup_inv in Hc as [Hi ->].
  destruct (decide (S i < w)%nat) as [Hearly|Hfull].
  { apply window_mean_early; lia. }
  apply window_mean_nan. unfold rolling_window. rewrite decide_True by lia.
  apply list_elem_of_lookup. exists (j - (S i - w))%nat.
  rewrite lookup_take_lt by lia. rewrite lookup_drop.
  by replace (S i - w + (j - (S i - w)))%nat with j by lia.
Qed.

Lemma is_None_lookup xs i : (i < length xs)%nat → ∃ c, xs !! i = Some c.
Proof. intros Hi. by apply lookup_lt_is_Some_2. Qed.

(** The smoothed first derivative has no value before position 4. *)
Lemma sgv_diff_smooth_early sgv i c :
  (i < 4)%nat → sgv_diff_smooth sgv !! i = Some c → c = None.
Proof.
  intros Hi Hc. unfold sgv_diff_smooth in Hc.
  assert (i < length (sgv_diff sgv))%nat as Hlen.
  { apply lookup_lt_Some in Hc. by rewrite length_rolling_mean in Hc. }
  destruct (is_None_lookup (sgv_diff sgv) 0) as [c0 Hc0]; [lia|].
  pose proof (diff_lookup_0 _ _ Hc0) as ->.
  eapply (rolling_mean_nan 4 _ i 0%nat); [done|lia|done].
Qed.

(** The second derivative has no value before position 5. *)
Lemma sgv_diff2_early sgv j c :
  (j < 5)%nat → sgv_diff2 sgv !! j = Some c → c = None.
Proof.
  intros Hj Hc. unfold sgv_diff2 in Hc. destruct j as [|j].
  { by apply diff_lookup_0 in Hc. }
  assert (S j < length (sgv_diff_smooth sgv))%nat as Hlen.
  { apply lookup_lt_Some in Hc. by rewrite length_diff in Hc. }
  destruct (is_None_lookup (sgv_diff_smooth sgv) j) as [y Hy]; [lia|].
  destruct (is_None_lookup (sgv_diff_smooth sgv) (S j)) as [x Hx]; [lia|].
  rewrite (diff_lookup_S _ _ _ _ Hy Hx) in Hc.
  apply sgv_diff_smooth_early in Hy as ->; [|lia].
  rewrite cell_sub_nan_r in Hc. congruence.
Qed.

(** The smoothed second derivative has no value before position 8. *)
Lemma sgv_diff2_smooth_early sgv i c :
  (i < 8)%nat → sgv_diff2_smooth sgv !! i = Some c → c = None.
Proof.
  intros Hi Hc. unfold sgv_diff2_smooth in Hc.
  assert (i < length (sgv_diff2 sgv))%nat as Hlen.
  { apply lookup_lt_Some in Hc. by rewrite length_rolling_mean in Hc. }
  destruct (decide (i < 4)%nat) as [Hlow|Hhigh].
  - destruct (is_None_lookup (sgv_diff2 sgv) 0) as [c0 Hc0]; [lia|].
    pose proof (sgv_diff2_early sgv 0%nat c0 ltac:(lia) Hc0) as ->.
    eapply (rolling_mean_nan 4 _ i 0%nat); [done|lia|done].
  - destruct (is_None_lookup (sgv_diff2 sgv) 4) as [c4 Hc4]; [lia|].
    pose proof (sgv_diff2_early sgv 4%nat c4 ltac:(lia) Hc4) as ->.
    eapply (rolling_mean_nan 4 _ i 4%nat); [done|lia|done].
Qed.

Lemma length_derived sgv :
  length (sgv_diff sgv) = length sgv ∧ length (sgv_diff_smooth sgv) = length sgv
  ∧ length (sgv_diff2 sgv) = length sgv ∧ length (sgv_diff2_smooth sgv) = length sgv.
Proof.
  unfold sgv_diff2_smooth, sgv_diff2, sgv_diff_smooth, sgv_diff.
  by rewrite !length_rolling_mean, !length_diff, !length_rolling_mean, !length_diff.
Qed.


End Derivatives.

(** * Running the script *)

Section ScriptRun.
Variable argsort : list Z → list nat.
Implicit Types (σ : globals) (g df : frame) (d : Z).

Lemma day_body_run d g x y σ :
  col_dateTime g = Some x → col_sgv g = Some y →
  day_body (d, g) σ
  = Outcome (day_events d x y) (rebind_day σ d (with_derivatives g y)) (inr ()).
Proof. destruct g; simpl; intros -> ->; reflexivity. Qed.

Lemma day_body_no_sgv d g x σ :
  col_dateTime g = Some x → col_sgv g = None →
  day_body (d, g) σ
  = Outcome [st_subheader Glucose d] (rebind_day σ d g) (inl (KeyError c_sgv)).
Proof. destruct g; simpl; intros -> ->; reflexivity. Qed.

Lemma for_each_day_run groups σ :
  Forall (λ item, is_Some (col_dateTime item.2) ∧ is_Some (col_sgv item.2)) groups →
  for_each day_body groups σ
  = Outcome (groups ≫= group_events) (last_day σ groups) (inr ()).
Proof.
  intros Hcols. revert σ. induction Hcols as [|[d g] groups [[x Hx] [y Hy]] _ IH]; intros σ.
  - reflexivity.
  - cbn [for_each]. unfold mbind at 1, script_bind.
    rewrite (day_body_run d g x y) by done. cbn [result emitted store].
    rewrite IH. cbn [result emitted store]. f_equal.
    + cbn in Hx, Hy. cbn. unfold group_events at 1. cbn. by rewrite Hx, Hy.
    + cbn in Hy. unfold last_day. destruct groups as [|item groups]; cbn; [by rewrite Hy|].
      destruct (last (item :: groups)) as [[??]|] eqn:E; [done|].
      by apply last_None in E.
Qed.

Lemma groupby_date_take df groups :
  groupby_date df = inr groups →
  Forall (λ item, ∃ ix, item.2 = take_frame ix df) groups.
Proof.
  unfold groupby_date. destruct (col_date df) as [col|]; [|done].
  intros [= <-]. apply Forall_fmap, Forall_forall. intros k _. cbn. eauto.
Qed.

Lemma series_frame_inv entries df :
  series_frame argsort entries = inr df →
  ∃ ms, json_column e_date entries = Some ms ∧ to_datetime ms = inr ms ∧
    df = set_date (take_frame (nargsort argsort ms) (set_dateTime (DataFrame entries) ms))
                  (dt_date (take_rows (nargsort argsort ms) ms)).
Proof.
  unfold series_frame. cbn [col_date DataFrame].
  destruct (json_column e_date entries) as [ms|]; [|done].
  destruct (to_datetime ms) as [e|dt] eqn:E; [done|].
  assert (dt = ms) as ->.
  { unfold to_datetime in E. by destruct (forallb _ _); simplify_eq. }
  intros [= <-]. eauto.
Qed.

Implicit Types (gr : option (list (Z * frame))) (od : option Z) (og : option frame).

Lemma bind_inr {A B} (m : script A) (k : A → script B) σ ev σ' a :
  m σ = Outcome ev σ' (inr a) → (m ≫= k) σ = prepend ev (k a σ').
Proof. intros H. unfold mbind, script_bind, prepend. by rewrite H. Qed.

Lemma bind_inl {A B} (m : script A) (k : A → script B) σ ev σ' e :
  m σ = Outcome ev σ' (inl e) → (m ≫= k) σ = Outcome ev σ' (inl e).
Proof. intros H. unfold mbind, script_bind. by rewrite H. Qed.

Lemma assign_dateTime_run df gr od og ms :
  col_date df = Some ms → to_datetime ms = inr ms →
  assign_dateTime (Globals (Some df) gr od og)
  = Outcome [] (Globals (Some (set_dateTime df ms)) gr od og) (inr ()).
Proof.
  intros Hms Hdt. unfold assign_dateTime, mbind, script_bind. cbn [load v_df result store emitted].
  rewrite Hms. cbn [getitem mret script_ret result store emitted].
  rewrite Hdt. reflexivity.
Qed.

Lemma assign_dateTime_fail df gr od og e :
  match col_date df with
  | Some ms => to_datetime ms = inl e
  | None => e = KeyError c_date
  end →
  assign_dateTime (Globals (Some df) gr od og)
  = Outcome [] (Globals (Some df) gr od og) (inl e).
Proof.
  intros H. unfold assign_dateTime, mbind, script_bind. cbn [load v_df result store emitted].
  destruct (col_date df) as [ms|]; [|by subst].
  cbn [getitem mret script_ret result store emitted]. rewrite H. reflexivity.
Qed.

Lemma sort_by_dateTime_run df gr od og keys :
  col_dateTime df = Some keys →
  sort_by_dateTime argsort (Globals (Some df) gr od og)
  = Outcome [] (Globals (Some (take_frame (nargsort argsort keys) df)) gr od og) (inr ()).
Proof.
  intros Hk. unfold sort_by_dateTime, mbind, script_bind, sort_values_dateTime.
  cbn [load v_df result store emitted]. rewrite Hk. reflexivity.
Qed.

Lemma assign_date_run df gr od og keys :
  col_dateTime df = Some keys →
  assign_date (Globals (Some df) gr od og)
  = Outcome [] (Globals (Some (set_date df (dt_date keys))) gr od og) (inr ()).
Proof.
  intros Hk. unfold assign_date, mbind, script_bind.
  cbn [load v_df result store emitted]. rewrite Hk. reflexivity.
Qed.

Lemma group_by_date_run df gr od og groups :
  groupby_date df = inr groups →
  group_by_date (Globals (Some df) gr od og)
  = Outcome [] (Globals (Some df) (Some groups) od og) (inr ()).
Proof.
  intros Hg. unfold group_by_date, mbind, script_bind.
  cbn [load v_df result store emitted]. rewrite Hg. reflexivity.
Qed.

Lemma plot_days_run df groups od og :
  Forall (λ item, is_Some (col_dateTime item.2) ∧ is_Some (col_sgv item.2)) groups →
  plot_days (Globals (Some df) (Some groups) od og)
  = Outcome (groups ≫= group_events)
            (last_day (Globals (Some df) (Some groups) od og) groups) (inr ()).
Proof.
  intros Hcols. unfold plot_days, mbind at 1, script_bind.
  cbn [load v_grouped result store emitted]. by rewrite for_each_day_run.
Qed.

Lemma statistics_panel_run df gr od og sgv :
  col_sgv df = Some sgv →
  statistics_panel (Globals (Some df) gr od og)
  = Outcome (statistics_events sgv) (Globals (Some df) gr od og) (inr ()).
Proof. destruct df; cbn [col_sgv]; intros ->; reflexivity. Qed.

Lemma statistics_panel_fail df gr od og :
  col_sgv df = None →
  statistics_panel (Globals (Some df) gr od og)
  = Outcome [st_subheader_statistics] (Globals (Some df) gr od og) (inl (KeyError c_sgv)).
Proof. destruct df; cbn [col_sgv]; intros ->; reflexivity. Qed.

Lemma last_day_df σ groups : v_df (last_day σ groups) = v_df σ.
Proof. unfold last_day. by destruct (last groups) as [[??]|]. Qed.

Lemma last_day_eta df groups od og :
  ∃ od' og', last_day (Globals (Some df) (Some groups) od og) groups
             = Globals (Some df) (Some groups) od' og'.
Proof. unfold last_day. destruct (last groups) as [[??]|]; cbn; eauto. Qed.

Lemma prepare_run entries σ ms groups :
  json_column e_date entries = Some ms → to_datetime ms = inr ms →
  groupby_date (sorted_frame argsort entries ms) = inr groups →
  ∀ (k : script unit),
    (load_entries entries;; assign_dateTime;; sort_by_dateTime argsort;;
     assign_date;; group_by_date;; k) σ
    = k (Globals (Some (sorted_frame argsort entries ms)) (Some groups) (v_date σ) (v_group σ)).
Proof.
  intros Hms Hdt Hgroups k.
  erewrite bind_inr; [|reflexivity].
  erewrite bind_inr; [|by apply assign_dateTime_run].
  erewrite bind_inr; [|by apply sort_by_dateTime_run].
  erewrite bind_inr; [|by apply assign_date_run].
  erewrite bind_inr; [|by apply group_by_date_run].
  unfold prepend. cbn [app emitted store result].
  by destruct (k _).
Qed.

(** The script on a response whose frame can be built and has glucose
    values: one block of charts per group, then the statistics. *)
Lemma process_run entries σ df groups sgv :
  series_frame argsort entries = inr df →
  groupby_date df = inr groups →
  col_sgv df = Some sgv →
  process argsort entries σ
  = Outcome ((groups ≫= group_events) ++ statistics_events sgv)
            (last_day (Globals (Some df) (Some groups) (v_date σ) (v_group σ)) groups)
            (inr ()).
Proof.
  intros Hdf Hgroups Hsgv.
  destruct (series_frame_inv _ _ Hdf) as (ms & Hms & Hdt & ->).
  fold (sorted_frame argsort entries ms) in *.
  assert (Forall (λ item, is_Some (col_dateTime item.2) ∧ is_Some (col_sgv item.2)) groups)
    as Hcols.
  { eapply Forall_impl; [by apply groupby_date_take|].
    intros [d g] [ix ->]. cbn [snd take_frame col_dateTime col_sgv].
    rewrite Hsgv. unfold sorted_frame. cbn [set_date take_frame set_dateTime col_dateTime fmap option_fmap option_map].
    split; eauto. }
  unfold process. rewrite (prepare_run entries σ ms groups) by done.
  erewrite bind_inr; [|by apply plot_days_run].
  destruct (last_day_eta (sorted_frame argsort entries ms) groups (v_date σ) (v_group σ))
    as (d' & g' & Hlast).
  rewrite Hlast. rewrite (statistics_panel_run _ _ _ _ sgv Hsgv). reflexivity.
Qed.

Lemma process_no_date entries σ e :
  series_frame argsort entries = inl e →
  emitted (process argsort entries σ) = [] ∧ result (process argsort entries σ) = inl e.
Proof.
  unfold series_frame. cbn [col_date DataFrame]. intros H.
  unfold process. erewrite bind_inr; [|reflexivity].
  erewrite bind_inl; [done|]. apply assign_dateTime_fail. cbn [col_date DataFrame].
  destruct (json_column e_date entries) as [ms|]; [|congruence].
  destruct (to_datetime ms); congruence.
Qed.

Lemma process_no_sgv entries σ df groups :
  series_frame argsort entries = inr df →
  groupby_date df = inr groups →
  col_sgv df = None →
  emitted (process argsort entries σ)
  = match groups with
    | [] => [st_subheader_statistics]
    | item :: _ => [st_subheader Glucose item.1]
    end
  ∧ result (process argsort entries σ) = inl (KeyError c_sgv).
Proof.
  intros Hdf Hgroups Hsgv.
  destruct (series_frame_inv _ _ Hdf) as (ms & Hms & Hdt & ->).
  fold (sorted_frame argsort entries ms) in *.
  pose proof (groupby_date_take _ _ Hgroups) as Htake.
  unfold process. rewrite (prepare_run entries σ ms groups) by done.
  destruct groups as [|[d g] groups].
  - erewrite bind_inr; [|by apply plot_days_run].
    destruct (last_day_eta (sorted_frame argsort entries ms) [] (v_date σ) (v_group σ))
      as (od' & og' & Hlast).
    rewrite Hlast, statistics_panel_fail by done. done.
  - apply Forall_cons_1 in Htake as [[ix Hg] _]. cbn [snd] in Hg.
    erewrite bind_inl; [done|].
    unfold plot_days, mbind at 1, script_bind. cbn [load v_grouped result store emitted for_each].
    erewrite bind_inl; [reflexivity|].
    eapply (day_body_no_sgv d g).
    + rewrite Hg. unfold sorted_frame. reflexivity.
    + rewrite Hg. cbn [take_frame col_sgv]. by rewrite Hsgv.
Qed.

(** One press of the button, from any binding of the global names. *)
Lemma fetch_run entries σ :
  emitted (fetch_glucose_data argsort entries σ) = rendered argsort entries
  ∧ result (fetch_glucose_data argsort entries σ) = inr ().
Proof.
  unfold fetch_glucose_data, try_except, rendered.
  destruct entries as [|e0 entries]; [done|].
  set (es := e0 :: entries).
  destruct (series_frame argsort es) as [e|df] eqn:Hdf.
  { destruct (process_no_date es σ e Hdf) as [-> ->]. done. }
  destruct (groupby_date df) as [e|groups] eqn:Hgroups.
  { destruct (series_frame_inv _ _ Hdf) as (ms & _ & _ & ->). done. }
  destruct (col_sgv df) as [sgv|] eqn:Hsgv.
  - by rewrite (process_run es σ df groups sgv).
  - destruct (process_no_sgv es σ df groups Hdf Hgroups Hsgv) as [-> ->]. done.
Qed.


End ScriptRun.

(** * Row selection *)

Section Rows.
Context {A : Type}.
Implicit Types (col : list A) (ix : list nat).

Lemma take_rows_app ix1 ix2 col :
  take_rows (ix1 ++ ix2) col = take_rows ix1 col ++ take_rows ix2 col.
Proof. apply omap_app. Qed.

Lemma take_rows_cons_Some i ix col x :
  col !! i = Some x → take_rows (i :: ix) col = x :: take_rows ix col.
Proof. intros H. unfold take_rows. cbn. by rewrite H. Qed.

Lemma take_rows_cons_None i ix col :
  col !! i = None → take_rows (i :: ix) col = take_rows ix col.
Proof. intros H. unfold take_rows. cbn. by rewrite H. Qed.

Lemma take_rows_ext ix col1 col2 :
  Forall (λ i, col1 !! i = col2 !! i) ix → take_rows ix col1 = take_rows ix col2.
Proof.
  induction 1 as [|i ix Hi _ IH]; [done|]. unfold take_rows in *. cbn.
  by rewrite Hi, IH.
Qed.

Lemma take_rows_lookup ix col j :
  Forall (λ i, i < length col)%nat ix →
  take_rows ix col !! j = ix !! j ≫= (col !!.).
Proof.
  intros Hix. revert j. induction Hix as [|i ix Hi _ IH]; intros j; [done|].
  destruct (lookup_lt_is_Some_2 col i Hi) as [x Hx].
  rewrite (take_rows_cons_Some _ _ _ _ Hx). destruct j as [|j]; cbn; [done|]. apply IH.
Qed.

Lemma length_take_rows ix col :
  Forall (λ i, i < length col)%nat ix → length (take_rows ix col) = length ix.
Proof.
  induction 1 as [|i ix Hi _ IH]; [done|].
  destruct (lookup_lt_is_Some_2 col i Hi) as [x Hx].
  rewrite (take_rows_cons_Some _ _ _ _ Hx). cbn. by rewrite IH.
Qed.

Lemma take_rows_seq_from col1 col2 :
  take_rows (seq (length col1) (length col2)) (col1 ++ col2) = col2.
Proof.
  revert col1. induction col2 as [|x col2 IH]; intros col1; [done|]. cbn [length seq].
  rewrite (take_rows_cons_Some _ _ _ x).
  - f_equal. specialize (IH (col1 ++ [x])).
    rewrite length_app, <- app_assoc in IH. cbn in IH.
    by rewrite Nat.add_1_r in IH.
  - by rewrite list_lookup_middle.
Qed.

Lemma take_rows_seq col : take_rows (seq 0 (length col)) col = col.
Proof. apply (take_rows_seq_from []). Qed.

Lemma take_rows_seq_prefix col n :
  (n ≤ length col)%nat → take_rows (seq 0 n) col = take n col.
Proof.
  intros Hn. transitivity (take_rows (seq 0 (length (take n col))) (take n col));
    [|apply take_rows_seq].
  rewrite length_take, Nat.min_l by done.
  apply take_rows_ext, Forall_forall. intros i Hi.
  apply elem_of_seq in Hi. symmetry. apply lookup_take_lt. lia.
Qed.

Lemma take_rows_Permutation ix col :
  ix ≡ₚ seq 0 (length col) → take_rows ix col ≡ₚ col.
Proof.
  intros Hperm. transitivity (take_rows (seq 0 (length col)) col);
    [|by rewrite take_rows_seq].
  unfold take_rows. by rewrite Hperm.
Qed.

Lemma take_rows_concat (ixs : list (list nat)) col :
  take_rows (concat ixs) col = concat ((λ ix, take_rows ix col) <$> ixs).
Proof.
  induction ixs as [|ix ixs IH]; [done|].
  rewrite fmap_cons. cbn [concat]. by rewrite take_rows_app, IH.
Qed.

Lemma take_rows_fmap {B} (f : A → B) ix col :
  take_rows ix (f <$> col) = f <$> take_rows ix col.
Proof.
  induction ix as [|i ix IH]; [done|]. unfold take_rows in *. cbn.
  rewrite list_lookup_fmap. destruct (col !! i); cbn; by rewrite IH.
Qed.

Lemma take_rows_sublist ix col :
  StronglySorted lt ix → take_rows ix col `sublist_of` col.
Proof.
  intros Hsorted. revert col.
  assert (∀ s col, Forall (λ i, s ≤ i)%nat ix →
            omap (λ i, col !! (i - s)%nat) ix `sublist_of` col) as Hgen.
  { induction Hsorted as [|i ix _ IH Hlt]; intros s col Hs; [apply sublist_nil_l|].
    apply Forall_cons_1 in Hs as [Hi Hs]. cbn.
    destruct (col !! (i - s)%nat) as [x|] eqn:Hx.
    - apply list_elem_of_split_length in Hx as (l1 & l2 & -> & Hlen).
      apply sublist_inserts_l, sublist_skip.
      erewrite list_omap_ext; [apply (IH (S i) l2)|].
      + eapply Forall_impl; [exact Hlt|]. cbn. lia.
      + apply Forall2_same_length_lookup_2; [done|].
        intros j a b Ha Hb. simplify_eq.
        eapply Forall_lookup_1 in Hlt; [|exact Ha].
        rewrite lookup_app_r by lia. cbn.
        replace (a - s - length l1)%nat with (S (a - S i)) by lia. done.
    - apply (IH s). done. }
  intros col. specialize (Hgen 0%nat col).
  unfold take_rows. erewrite list_omap_ext; [apply Hgen, Forall_forall; lia|].
  apply Forall2_same_length_lookup_2; [done|].
  intros j a b Ha Hb. simplify_eq. by rewrite Nat.sub_0_r.
Qed.

End Rows.

Lemma take_rows_id ix n :
  Forall (λ i, i < n)%nat ix → take_rows ix (seq 0 n) = ix.
Proof.
  induction 1 as [|i ix Hi _ IH]; [done|].
  rewrite (take_rows_cons_Some _ _ _ i); [by rewrite IH|].
  by rewrite lookup_seq_lt.
Qed.

Lemma take_rows_take_rows {A} (a b : list nat) (col : list A) :
  Forall (λ i, i < length col)%nat b →
  take_rows (take_rows a b) col = take_rows a (take_rows b col).
Proof.
  intros Hb. induction a as [|i a IH]; [done|].
  destruct (b !! i) as [j|] eqn:Hj.
  - rewrite (take_rows_cons_Some _ _ b j) by done.
    assert (j < length col)%nat as Hlt.
    { eapply Forall_lookup_1 in Hb; [|exact Hj]. done. }
    destruct (lookup_lt_is_Some_2 col j Hlt) as [x Hx].
    rewrite (take_rows_cons_Some _ _ col x) by done.
    rewrite (take_rows_cons_Some _ _ (take_rows b col) x); [by rewrite IH|].
    rewrite take_rows_lookup by done. by rewrite Hj.
  - rewrite (take_rows_cons_None _ _ b) by done.
    rewrite (take_rows_cons_None _ _ (take_rows b col)); [done|].
    rewrite take_rows_lookup by done. by rewrite Hj.
Qed.

Lemma Permutation_seq_bound ix n : ix ≡ₚ seq 0 n → Forall (λ i, i < n)%nat ix.
Proof.
  intros Hperm. apply Forall_forall. intros i Hi. rewrite Hperm in Hi.
  apply elem_of_seq in Hi. lia.
Qed.

(** * Filters and positions *)

Section Filters.
Context {A : Type}.
Implicit Types (l : list A).

Lemma filter_ext_Forall (P Q : A → Prop) `{!∀ x, Decision (P x), !∀ x, Decision (Q x)} l :
  Forall (λ x, P x ↔ Q x) l → filter P l = filter Q l.
Proof.
  intros Hall. induction Hall as [|x l Hx Hl IH]; [done|]. rewrite !filter_cons, IH.
  destruct (decide (P x)), (decide (Q x)); tauto.
Qed.

Lemma filter_all (P : A → Prop) `{!∀ x, Decision (P x)} l :
  Forall P l → filter P l = l.
Proof.
  induction 1 as [|x l Hx _ IH]; [done|]. by rewrite filter_cons_True, IH.
Qed.

Lemma filter_none (P : A → Prop) `{!∀ x, Decision (P x)} l :
  Forall (λ x, ¬ P x) l → filter P l = [].
Proof.
  induction 1 as [|x l Hx _ IH]; [done|]. by rewrite filter_cons_False, IH.
Qed.

(** In a list sorted by key, the rows of the least key come first. *)
Lemma filter_least_key (f : A → Z) k l :
  StronglySorted (λ x y, f x ≤ f y) l → Forall (λ x, k ≤ f x) l →
  filter (λ x, f x = k) l ++ filter (λ x, f x ≠ k) l = l.
Proof.
  induction 1 as [|x l _ IH Hle]; intros Hk; [done|].
  apply Forall_cons_1 in Hk as [Hx Hk].
  destruct (decide (f x = k)) as [Heq|Hne].
  - rewrite filter_cons_True, filter_cons_False by (done || tauto).
    cbn. by rewrite IH.
  - rewrite filter_cons_False, filter_cons_True by done.
    assert (Forall (λ y, f y ≠ k) l) as Hall.
    { eapply Forall_impl; [exact Hle|]. cbn. lia. }
    rewrite filter_none, filter_all; [done|done|].
    eapply Forall_impl; [exact Hall|]. cbn. tauto.
Qed.

Lemma StronglySorted_filter (R : relation A) (P : A → Prop) `{!∀ x, Decision (P x)} l :
  StronglySorted R l → StronglySorted R (filter P l).
Proof.
  induction 1 as [|x l _ IH Hx]; [constructor|]. rewrite filter_cons.
  destruct (decide (P x)); [|done]. constructor; [done|].
  apply Forall_forall. intros y Hy. apply list_elem_of_filter in Hy as [_ Hy].
  by eapply Forall_forall in Hx.
Qed.

(** Grouping a key-sorted list by its keys, keys ascending, gives the
    list back. *)
Lemma concat_filter_keys (f : A → Z) ks l :
  StronglySorted Z.lt ks →
  StronglySorted (λ x y, f x ≤ f y) l →
  Forall (λ x, f x ∈ ks) l →
  concat ((λ k, filter (λ x, f x = k) l) <$> ks) = l.
Proof.
  intros Hks. revert l. induction Hks as [|k ks _ IH Hlt]; intros l Hl Hin.
  - destruct l as [|x l]; [done|].
    apply Forall_cons_1 in Hin as [Hx _]. by apply elem_of_nil in Hx.
  - rewrite fmap_cons. cbn [concat].
    transitivity (filter (λ x, f x = k) l ++ filter (λ x, f x ≠ k) l).
    2:{ apply filter_least_key; [done|].
        eapply Forall_impl; [exact Hin|]. cbn. intros x Hx.
        apply elem_of_cons in Hx as [->|Hx]; [lia|].
        eapply Forall_forall in Hlt; [|exact Hx]. lia. }
    f_equal. rewrite <- (IH (filter (λ x, f x ≠ k) l)).
    + f_equal. apply Forall_fmap_ext_1.
      eapply Forall_impl; [exact Hlt|]. cbn. intros k' Hk'.
      rewrite list_filter_filter. apply list_filter_iff. intros x. lia.
    + by apply StronglySorted_filter.
    + apply Forall_forall. intros x Hx. apply list_elem_of_filter in Hx as [Hne Hx].
      eapply Forall_forall in Hin; [|exact Hx]. cbn in Hin.
      apply elem_of_cons in Hin as [?|?]; done.
Qed.

End Filters.

Section Positions.
Context {A : Type} (P : A → Prop) `{!∀ x, Decision (P x)}.
Implicit Types (col : list A).

Lemma elem_of_positions col i :
  i ∈ positions P col ↔ ∃ x, col !! i = Some x ∧ P x.
Proof.
  unfold positions. rewrite list_elem_of_filter, elem_of_seq. split.
  - intros [Ht _]. destruct (col !! i) as [x|]; [|done].
    cbn in Ht. apply bool_decide_unpack in Ht. eauto.
  - intros (x & Hx & HP). rewrite Hx. cbn. split; [by apply bool_decide_pack|].
    apply lookup_lt_Some in Hx. lia.
Qed.

Lemma positions_bound col : Forall (λ i, i < length col)%nat (positions P col).
Proof.
  apply Forall_forall. intros i Hi. apply elem_of_positions in Hi as (x & Hx & _).
  by eapply lookup_lt_Some.
Qed.

Lemma positions_snoc col x :
  positions P (col ++ [x])
  = positions P col ++ (if decide (P x) then [length col] else []).
Proof.
  unfold positions. rewrite length_app. cbn [length].
  rewrite Nat.add_1_r, seq_S, filter_app. cbn [Nat.add]. f_equal.
  - apply filter_ext_Forall, Forall_forall. intros i Hi.
    apply elem_of_seq in Hi. rewrite lookup_app_l by lia. done.
  - rewrite filter_cons, filter_nil.
    rewrite list_lookup_middle by done. cbn.
    destruct (decide (P x)) as [HP|HP].
    + rewrite decide_True; [done|]. by apply bool_decide_pack.
    + rewrite decide_False; [done|]. intros Hb. by apply bool_decide_unpack in Hb.
Qed.

Lemma take_rows_positions col :
  take_rows (positions P col) col = filter P col.
Proof.
  induction col as [|x col IH] using rev_ind; [done|].
  rewrite positions_snoc, take_rows_app, filter_app. f_equal.
  - rewrite <- IH. apply take_rows_ext.
    eapply Forall_impl; [apply positions_bound|]. cbn. intros i Hi.
    by rewrite lookup_app_l.
  - rewrite filter_cons, filter_nil. destruct (decide (P x)); [|done].
    rewrite (take_rows_cons_Some _ [] _ x); [done|]. by rewrite list_lookup_middle.
Qed.

Lemma positions_sorted col : StronglySorted lt (positions P col).
Proof.
  unfold positions. apply StronglySorted_filter.
  generalize 0%nat. induction (length col) as [|n IH]; intros s; [constructor|].
  cbn. constructor; [apply IH|]. apply Forall_seq. lia.
Qed.


Lemma positions_app_none col tail :
  Forall (λ x, ¬ P x) tail → positions P (col ++ tail) = positions P col.
Proof.
  induction tail as [|x tail IH] using rev_ind; intros Hall.
  - by rewrite app_nil_r.
  - apply Forall_app in Hall as [Htail Hx]. rewrite Forall_singleton in Hx.
    rewrite app_assoc, positions_snoc.
    destruct (decide (P x)) as [HP|_]; [by apply Hx in HP|].
    rewrite app_nil_r. by apply IH.
Qed.

End Positions.

Lemma positions_complement {A} (P : A → Prop) `{!∀ x, Decision (P x)} (col : list A) :
  positions P col ++ positions (λ x, ¬ P x) col ≡ₚ seq 0 (length col).
Proof.
  unfold positions at 1 2.
  etransitivity; [|apply (filter_app_complement
    (λ i, from_option (λ x, bool_decide (P x)) false (col !! i)))].
  f_equiv. apply reflexive_eq, filter_ext_Forall, Forall_forall. intros i Hi.
  apply elem_of_seq in Hi as [_ Hi]. cbn in Hi.
  destruct (lookup_lt_is_Some_2 col i Hi) as [x ->]. cbn.
  rewrite !bool_decide_spec. done.
Qed.

(** The non-missing cells of a column. *)
Lemma filter_is_Some (col : list (option Z)) :
  filter is_Some col = Some <$> omap id col.
Proof.
  induction col as [|[t|] col IH]; [done| |].
  - rewrite filter_cons_True by eauto. cbn. by rewrite IH.
  - rewrite filter_cons_False by (intros [? ?]; done). done.
Qed.

Lemma filter_is_None (col : list (option Z)) :
  filter (λ c, c = None) col = replicate (length (filter (λ c, c = None) col)) None.
Proof.
  induction col as [|[t|] col IH]; [done| |].
  - by rewrite filter_cons_False.
  - rewrite filter_cons_True by done. cbn. by rewrite <- IH.
Qed.

Lemma positions_ext {A} (P Q : A → Prop) `{!∀ x, Decision (P x), !∀ x, Decision (Q x)}
    (col : list A) :
  (∀ x, P x ↔ Q x) → positions P col = positions Q col.
Proof.
  intros HPQ. unfold positions. apply filter_ext_Forall, Forall_forall. intros i _.
  destruct (col !! i) as [x|]; cbn; [|done]. by rewrite !bool_decide_spec.
Qed.

Lemma omap_id_Some (ds : list Z) : omap id (Some <$> ds) = ds.
Proof. induction ds as [|d ds IH]; [done|]. cbn. by rewrite IH. Qed.

Lemma omap_id_None (m : nat) : omap id (replicate m (@None Z)) = [].
Proof. induction m as [|m IH]; [done|]. cbn. by rewrite IH. Qed.

Lemma StronglySorted_fmap_inv {A B} (f : A → B) (R : relation B) (l : list A) :
  StronglySorted R (f <$> l) → StronglySorted (λ x y, R (f x) (f y)) l.
Proof.
  induction l as [|x l IH]; [constructor|]. rewrite fmap_cons.
  intros Hs. apply StronglySorted_inv in Hs as [Hs Hx].
  constructor; [by apply IH|]. rewrite Forall_fmap in Hx. exact Hx.
Qed.

Lemma fmap_default_lookup_seq (ds : list Z) :
  (λ i, default 0 (ds !! i)) <$> seq 0 (length ds) = ds.
Proof.
  apply list_eq. intros i. rewrite list_lookup_fmap.
  destruct (decide (i < length ds)%nat) as [Hi|Hi].
  - rewrite lookup_seq_lt by done. cbn.
    destruct (lookup_lt_is_Some_2 ds i Hi) as [d ->]. done.
  - rewrite lookup_seq_ge, lookup_ge_None_2 by lia. done.
Qed.

(** * Sorting with missing keys last *)

Section Nargsort.
Variable argsort : list Z → list nat.
Hypothesis argsort_sorts : sorts argsort.
Implicit Types (keys : list (option Z)).

Lemma length_positions_is_Some keys :
  length (positions is_Some keys) = length (omap id keys).
Proof.
  rewrite <- (length_take_rows (positions is_Some keys) keys) by apply positions_bound.
  by rewrite take_rows_positions, filter_is_Some, length_fmap.
Qed.

Lemma nargsort_Permutation keys : nargsort argsort keys ≡ₚ seq 0 (length keys).
Proof.
  unfold nargsort. rewrite <- (positions_complement is_Some keys).
  f_equiv.
  - apply take_rows_Permutation. rewrite length_positions_is_Some.
    apply argsort_sorts.
  - apply reflexive_eq, positions_ext. intros c.
    rewrite <- not_eq_None_Some. destruct c; naive_solver.
Qed.

Lemma take_rows_nargsort keys :
  take_rows (nargsort argsort keys) keys
  = (Some <$> take_rows (argsort (omap id keys)) (omap id keys))
    ++ replicate (length (positions (λ c : option Z, c = None) keys)) None.
Proof.
  unfold nargsort. rewrite take_rows_app. f_equal.
  - rewrite take_rows_take_rows by apply positions_bound.
    by rewrite take_rows_positions, filter_is_Some, take_rows_fmap.
  - rewrite take_rows_positions.
    rewrite <- (length_take_rows _ keys) by apply positions_bound.
    rewrite take_rows_positions. apply filter_is_None.
Qed.

Lemma nargsort_bound keys : Forall (λ i, i < length keys)%nat (nargsort argsort keys).
Proof. apply Permutation_seq_bound, nargsort_Permutation. Qed.

Lemma length_nargsort keys : length (nargsort argsort keys) = length keys.
Proof. by rewrite nargsort_Permutation, length_seq. Qed.

Lemma sorted_keys_sorted keys :
  StronglySorted Z.le (take_rows (argsort (omap id keys)) (omap id keys)).
Proof. apply Sorted_StronglySorted; [apply _|]. apply argsort_sorts. Qed.

End Nargsort.

(** * Group keys and group positions *)

Lemma elem_of_insert_key k ks x : x ∈ insert_key k ks ↔ x = k ∨ x ∈ ks.
Proof.
  induction ks as [|k' ks IH]; cbn.
  - rewrite list_elem_of_singleton, elem_of_nil. tauto.
  - repeat case_decide; subst; rewrite ?elem_of_cons, ?IH; naive_solver.
Qed.

Lemma insert_key_sorted k ks :
  StronglySorted Z.lt ks → StronglySorted Z.lt (insert_key k ks).
Proof.
  induction 1 as [|k' ks Hs IH Hlt]; cbn.
  - repeat constructor.
  - repeat case_decide; subst.
    + constructor; [by constructor|]. constructor; [done|].
      eapply Forall_impl; [exact Hlt|]. cbn. lia.
    + by constructor.
    + constructor; [done|]. apply Forall_forall. intros x Hx.
      apply elem_of_insert_key in Hx as [->|Hx]; [lia|].
      by eapply Forall_forall in Hlt.
Qed.

Lemma group_keys_sorted col : StronglySorted Z.lt (group_keys col).
Proof.
  unfold group_keys. induction (omap id col) as [|k ks IH]; [constructor|].
  cbn. by apply insert_key_sorted.
Qed.

Lemma elem_of_group_keys col k : k ∈ group_keys col ↔ Some k ∈ col.
Proof.
  unfold group_keys. induction col as [|[t|] col IH]; cbn.
  - rewrite !elem_of_nil. tauto.
  - rewrite elem_of_insert_key, IH, elem_of_cons. naive_solver.
  - rewrite IH, elem_of_cons. naive_solver.
Qed.

(** A date column as the script has it after sorting: the dates of the
    timestamped rows, ascending, then the rows without a timestamp. *)
Lemma group_positions_sorted_column (ds : list Z) (m : nat) (k : Z) :
  group_positions ((Some <$> ds) ++ replicate m None) k
  = filter (λ i, default 0 (ds !! i) = k) (seq 0 (length ds)).
Proof.
  unfold group_positions. rewrite positions_app_none.
  2:{ apply Forall_replicate. done. }
  unfold positions. rewrite length_fmap.
  apply filter_ext_Forall, Forall_forall. intros i Hi.
  apply elem_of_seq in Hi as [_ Hi]. cbn in Hi. rewrite list_lookup_fmap.
  destruct (lookup_lt_is_Some_2 ds i Hi) as [d ->]. cbn.
  rewrite bool_decide_spec. naive_solver.
Qed.

Lemma group_positions_concat (ds : list Z) (m : nat) :
  StronglySorted Z.le ds →
  concat (group_positions ((Some <$> ds) ++ replicate m None)
            <$> group_keys ((Some <$> ds) ++ replicate m None))
  = seq 0 (length ds).
Proof.
  intros Hds. set (col := (Some <$> ds) ++ replicate m None).
  rewrite <- (concat_filter_keys (λ i, default 0 (ds !! i)) (group_keys col)
                (seq 0 (length ds))).
  - f_equal. apply list_fmap_ext. intros _ k _. apply group_positions_sorted_column.
  - apply group_keys_sorted.
  - apply StronglySorted_fmap_inv. by rewrite fmap_default_lookup_seq.
  - apply Forall_forall. intros i Hi. apply elem_of_seq in Hi as [_ Hi]. cbn in Hi.
    destruct (lookup_lt_is_Some_2 ds i Hi) as [d Hd]. rewrite Hd. cbn.
    apply elem_of_group_keys. unfold col. apply elem_of_app. left.
    apply list_elem_of_fmap. exists d. split; [done|]. by eapply list_elem_of_lookup_2.
Qed.

(** * The sorted frame and its groups *)

Lemma elem_of_take_rows {A} (ix : list nat) (col : list A) (x : A) :
  x ∈ take_rows ix col ↔ ∃ i, i ∈ ix ∧ col !! i = Some x.
Proof. unfold take_rows. rewrite list_elem_of_omap. naive_solver. Qed.

Lemma json_column_Some f entries col :
  json_column f entries = Some col → col = f <$> entries.
Proof. unfold json_column. destruct (existsb _ _); naive_solver. Qed.

Lemma json_column_is_Some f entries :
  Exists (λ e, is_Some (f e)) entries → json_column f entries = Some (f <$> entries).
Proof.
  intros Hex. unfold json_column.
  destruct (existsb _ entries) eqn:E; [done|].
  apply Exists_exists in Hex as (e & He & Hf).
  assert (existsb (λ e, bool_decide (is_Some (f e))) entries = true) as Ht; [|congruence].
  apply existsb_exists. exists e. split; [by apply list_elem_of_In|].
  by apply bool_decide_eq_true.
Qed.

Lemma to_datetime_representable entries :
  representable entries → to_datetime (e_date <$> entries) = inr (e_date <$> entries).
Proof.
  intros Hrep. unfold to_datetime.
  destruct (forallb _ _) eqn:E; [done|].
  apply not_true_iff_false in E. destruct E. apply forallb_forall.
  intros c Hc. apply list_elem_of_In, list_elem_of_fmap in Hc as (e & -> & He).
  eapply Forall_forall in Hrep; [|exact He]. cbn in Hrep.
  destruct (e_date e); [by apply bool_decide_eq_true|done].
Qed.

Lemma dt_date_sorted_column (ts : list Z) (m : nat) :
  dt_date ((Some <$> ts) ++ replicate m None)
  = (Some <$> ((λ t, t `div` ms_per_day) <$> ts)) ++ replicate m None.
Proof.
  unfold dt_date. rewrite fmap_app, fmap_replicate, <- !list_fmap_compose. done.
Qed.

Lemma days_sorted (ts : list Z) :
  StronglySorted Z.le ts → StronglySorted Z.le ((λ t, t `div` ms_per_day) <$> ts).
Proof.
  apply StronglySorted_fmap. intros x y Hxy. by apply Z.div_le_mono.
Qed.

Section SortedFrame.
Variable argsort : list Z → list nat.
Hypothesis argsort_sorts : sorts argsort.
Implicit Types (entries : list entry) (df g : frame).

Lemma omap_id_fmap {A} (f : A → option Z) (l : list A) : omap id (f <$> l) = omap f l.
Proof. induction l as [|x l IH]; [done|]. cbn. destruct (f x); cbn; by rewrite IH. Qed.

Lemma series_frame_ok entries :
  Exists (λ e, is_Some (e_date e)) entries → representable entries →
  series_frame argsort entries = inr (sorted_frame argsort entries (e_date <$> entries)).
Proof.
  intros Hex Hrep. unfold series_frame. cbn [DataFrame col_date].
  rewrite (json_column_is_Some _ _ Hex), (to_datetime_representable _ Hrep). done.
Qed.

Lemma series_frame_sorted_frame entries df :
  series_frame argsort entries = inr df →
  df = sorted_frame argsort entries (e_date <$> entries)
  ∧ Exists (λ e, is_Some (e_date e)) entries.
Proof.
  intros Hdf. destruct (series_frame_inv _ _ _ Hdf) as (ms & Hms & _ & ->).
  pose proof (json_column_Some _ _ _ Hms) as ->. split; [done|].
  unfold json_column in Hms. destruct (existsb _ entries) eqn:E; [|done].
  apply existsb_exists in E as (e & He & Hf). apply Exists_exists.
  exists e. split; [by apply list_elem_of_In|]. by apply bool_decide_eq_true in Hf.
Qed.

Lemma sorted_frame_index entries :
  index (sorted_frame argsort entries (e_date <$> entries))
  = nargsort argsort (e_date <$> entries).
Proof.
  cbn. apply take_rows_id. rewrite <- (length_fmap e_date entries).
  by apply nargsort_bound.
Qed.


Lemma sorted_frame_date entries :
  col_date (sorted_frame argsort entries (e_date <$> entries))
  = Some ((Some <$> ((λ t, t `div` ms_per_day) <$> sorted_timestamps argsort entries))
          ++ replicate (missing_timestamps entries) None).
Proof.
  cbn. f_equal. rewrite take_rows_nargsort, omap_id_fmap.
  apply dt_date_sorted_column.
Qed.

Lemma sorted_timestamps_sorted entries :
  StronglySorted Z.le (sorted_timestamps argsort entries).
Proof.
  unfold sorted_timestamps. rewrite <- omap_id_fmap. by apply sorted_keys_sorted.
Qed.

Lemma length_sorted_timestamps entries :
  (length (sorted_timestamps argsort entries) + missing_timestamps entries)%nat = length entries.
Proof.
  pose proof (f_equal length (take_rows_nargsort argsort (e_date <$> entries))) as H.
  rewrite length_take_rows in H by by apply nargsort_bound.
  rewrite length_nargsort, length_app, !length_fmap, length_replicate in H by done.
  rewrite omap_id_fmap in H. unfold sorted_timestamps, missing_timestamps. lia.
Qed.

End SortedFrame.

Section Groups.
Variable argsort : list Z → list nat.
Hypothesis argsort_sorts : sorts argsort.
Implicit Types (entries : list entry) (df g : frame) (k : Z).

Lemma groupby_sorted_frame entries :
  groupby_date (sorted_frame argsort entries (e_date <$> entries))
  = inr ((λ k, (k, take_frame (group_positions (sorted_dates argsort entries) k)
                     (sorted_frame argsort entries (e_date <$> entries))))
         <$> group_keys (sorted_dates argsort entries)).
Proof.
  unfold groupby_date. rewrite sorted_frame_date by done. done.
Qed.

Lemma sort_and_partition_inv entries groups :
  sort_and_partition argsort entries = inr groups →
  series_frame argsort entries
  = inr (sorted_frame argsort entries (e_date <$> entries))
  ∧ groups = (λ k, (k, take_frame (group_positions (sorted_dates argsort entries) k)
                         (sorted_frame argsort entries (e_date <$> entries))))
             <$> group_keys (sorted_dates argsort entries).
Proof.
  unfold sort_and_partition.
  destruct (series_frame argsort entries) as [e|df] eqn:Hdf; [done|].
  apply series_frame_sorted_frame in Hdf as [-> _].
  rewrite groupby_sorted_frame. by intros [= <-].
Qed.

Lemma groups_keys entries groups :
  sort_and_partition argsort entries = inr groups →
  groups.*1 = group_keys (sorted_dates argsort entries).
Proof.
  intros [_ ->]%sort_and_partition_inv. rewrite <- list_fmap_compose.
  apply list_fmap_id.
Qed.

Lemma groups_index entries groups :
  sort_and_partition argsort entries = inr groups →
  index <$> groups.*2
  = (λ p, take_rows p (nargsort argsort (e_date <$> entries)))
    <$> (group_positions (sorted_dates argsort entries) <$> group_keys (sorted_dates argsort entries)).
Proof.
  intros [_ ->]%sort_and_partition_inv. rewrite <- !list_fmap_compose.
  apply list_fmap_ext. intros _ k _. cbn [compose snd take_frame index].
  by rewrite sorted_frame_index.
Qed.

(** The groups, one after another, are the timestamped rows of the
    sorted frame in their sorted order. *)
Lemma groups_concat entries groups :
  sort_and_partition argsort entries = inr groups →
  concat (index <$> groups.*2)
  = take (length (sorted_timestamps argsort entries))
         (nargsort argsort (e_date <$> entries)).
Proof.
  intros Hgroups. rewrite (groups_index _ _ Hgroups), <- take_rows_concat.
  unfold sorted_dates. rewrite group_positions_concat.
  - rewrite length_fmap. apply take_rows_seq_prefix.
    rewrite length_nargsort, length_fmap by done.
    pose proof (length_sorted_timestamps argsort argsort_sorts entries). lia.
  - apply days_sorted. by apply sorted_timestamps_sorted.
Qed.



Lemma group_col_dateTime entries p :
  col_dateTime (take_frame p (sorted_frame argsort entries (e_date <$> entries)))
  = Some (take_rows p (take_rows (nargsort argsort (e_date <$> entries))
                                 (e_date <$> entries))).
Proof. reflexivity. Qed.

Lemma group_col_sgv entries p :
  col_sgv (take_frame p (sorted_frame argsort entries (e_date <$> entries)))
  = (λ sgv, take_rows p (take_rows (nargsort argsort (e_date <$> entries)) sgv))
    <$> json_column e_sgv entries.
Proof. cbn. by destruct (json_column e_sgv entries). Qed.

(** The rows of one group. *)
Lemma group_rows entries groups k g :
  sort_and_partition argsort entries = inr groups → (k, g) ∈ groups →
  index g ≠ []
  ∧ index g `sublist_of` nargsort argsort (e_date <$> entries)
  ∧ col_dateTime g = Some (take_rows (index g) (e_date <$> entries))
  ∧ col_sgv g = take_rows (index g) <$> json_column e_sgv entries
  ∧ Forall (λ c, ∃ t, c = Some t ∧ t `div` ms_per_day = k)
           (take_rows (index g) (e_date <$> entries)).
Proof.
  intros [_ ->]%sort_and_partition_inv Hin.
  apply list_elem_of_fmap in Hin as (k' & [= <- ->] & Hk).
  set (p := group_positions (sorted_dates argsort entries) k).
  set (ix := nargsort argsort (e_date <$> entries)).
  assert (Forall (λ i, i < length (e_date <$> entries))%nat ix) as Hix
    by by apply nargsort_bound.
  assert (length (sorted_dates argsort entries) = length ix) as Hlen.
  { unfold sorted_dates, ix.
    rewrite length_app, !length_fmap, length_replicate, length_nargsort, length_fmap by done.
    by apply length_sorted_timestamps. }
  assert (Forall (λ i, i < length ix)%nat p) as Hp.
  { rewrite <- Hlen. apply positions_bound. }
  assert (index (take_frame p (sorted_frame argsort entries (e_date <$> entries)))
          = take_rows p ix) as Hindex.
  { cbn [take_frame index]. by rewrite sorted_frame_index. }
  rewrite Hindex.
  assert (take_rows p (take_rows ix (e_date <$> entries))
          = take_rows (take_rows p ix) (e_date <$> entries)) as Hcomp.
  { symmetry. by apply take_rows_take_rows. }
  split; [|split; [|split; [|split]]].
  - apply elem_of_group_keys, list_elem_of_lookup in Hk as [i Hi].
    assert (i ∈ p) as Hip by (apply elem_of_positions; eauto).
    intros Hnil. apply (f_equal length) in Hnil.
    rewrite length_take_rows in Hnil by done.
    destruct p; [by apply elem_of_nil in Hip|done].
  - apply take_rows_sublist, positions_sorted.
  - rewrite group_col_dateTime. by rewrite <- Hcomp.
  - rewrite group_col_sgv.
    destruct (json_column e_sgv entries) as [sgv|] eqn:Hsgv; [|done]. cbn.
    f_equal. symmetry. apply take_rows_take_rows.
    apply json_column_Some in Hsgv as ->.
    by rewrite length_fmap, <- (length_fmap e_date).
  - rewrite <- Hcomp. apply Forall_forall. intros c Hc.
    apply elem_of_take_rows in Hc as (i & Hi & Hc).
    apply elem_of_positions in Hi as (d & Hd & ->).
    unfold sorted_dates in Hd. rewrite <- dt_date_sorted_column in Hd.
    unfold ix in Hc. rewrite take_rows_nargsort, omap_id_fmap in Hc by done.
    fold (sorted_timestamps argsort entries) in Hc. fold (missing_timestamps entries) in Hc.
    unfold dt_date in Hd. rewrite list_lookup_fmap, Hc in Hd. cbn in Hd.
    destruct c as [t|]; [|done]. cbn in Hd. exists t. split; [done|]. congruence.
Qed.

End Groups.

(** * A sorting routine that meets the contract *)

Lemma take_rows_total (ix : list nat) (v : list Z) :
  Forall (λ i, i < length v)%nat ix → take_rows ix v = (λ i, v !!! i) <$> ix.
Proof.
  induction 1 as [|i ix Hi Hix IH]; [done|].
  destruct (lookup_lt_is_Some_2 v i Hi) as [x Hx].
  rewrite (take_rows_cons_Some _ _ _ x Hx), IH, fmap_cons.
  by rewrite (list_lookup_total_correct _ _ _ Hx).
Qed.

Lemma backwards_argsort_sorts : sorts backwards_argsort.
Proof.
  intros v. unfold backwards_argsort. split.
  { by rewrite reverse_Permutation, merge_sort_Permutation. }
  rewrite take_rows_total.
  - eapply (Sorted_fmap _ (flip (key_ge v))); [done|].
    apply Sorted_reverse, Sorted_merge_sort. intros i j. unfold key_ge. lia.
  - apply Permutation_seq_bound.
    by rewrite reverse_Permutation, merge_sort_Permutation.
Qed.

Lemma mergesort_argsort_sorts : sorts mergesort_argsort.
Proof.
  intros v. unfold mergesort_argsort. split; [apply merge_sort_Permutation|].
  rewrite take_rows_total.
  - eapply (Sorted_fmap _ (key_le v)); [done|].
    apply Sorted_merge_sort. intros i j. unfold key_le. lia.
  - apply Permutation_seq_bound, merge_sort_Permutation.
Qed.

(** * Sorting and grouping a response *)



Lemma sublist_of_concat {A} (l : list A) (ls : list (list A)) :
  l ∈ ls → l `sublist_of` concat ls.
Proof.
  induction ls as [|l' ls IH]; [intros []%elem_of_nil|].
  intros [->|Hin]%elem_of_cons; cbn.
  - by apply sublist_inserts_r.
  - by apply sublist_inserts_l, IH.
Qed.

Section Claims.
Variable argsort : list Z → list nat.
Hypothesis argsort_sorts : sorts argsort.
Implicit Types (entries : list entry) (df g : frame) (k : Z).

Lemma sorted_frame_index_Permutation entries :
  index (sorted_frame argsort entries (e_date <$> entries)) ≡ₚ seq 0 (length entries).
Proof.
  rewrite sorted_frame_index by done. rewrite <- (length_fmap e_date entries).
  by apply nargsort_Permutation.
Qed.

Lemma sort_and_partition_ok entries :
  Exists (λ e, is_Some (e_date e)) entries → representable entries →
  ∃ groups, sort_and_partition argsort entries = inr groups
            ∧ groupby_date (sorted_frame argsort entries (e_date <$> entries)) = inr groups.
Proof.
  intros Hex Hrep. unfold sort_and_partition.
  rewrite (series_frame_ok argsort entries Hex Hrep).
  rewrite groupby_sorted_frame. eauto.
Qed.

(** The grouped rows are the rows that have a timestamp. *)
Lemma groups_concat_Permutation entries groups :
  sort_and_partition argsort entries = inr groups →
  concat (index <$> groups.*2) ≡ₚ positions is_Some (e_date <$> entries).
Proof.
  intros Hgroups. rewrite (groups_concat argsort argsort_sorts _ _ Hgroups).
  unfold nargsort.
  assert (length (sorted_timestamps argsort entries)
          = length (take_rows (argsort (omap id (e_date <$> entries)))
                              (positions is_Some (e_date <$> entries)))) as ->.
  { unfold sorted_timestamps. rewrite omap_id_fmap.
    rewrite !length_take_rows; [done| |].
    - rewrite length_positions_is_Some, omap_id_fmap.
      apply Permutation_seq_bound, argsort_sorts.
    - apply Permutation_seq_bound, argsort_sorts. }
  rewrite take_app_length. apply take_rows_Permutation.
  rewrite length_positions_is_Some. apply argsort_sorts.
Qed.

Lemma sorted_frame_sgv entries :
  col_sgv (sorted_frame argsort entries (e_date <$> entries))
  = take_rows (nargsort argsort (e_date <$> entries)) <$> json_column e_sgv entries.
Proof. reflexivity. Qed.

(** The glucose column of the sorted frame holds the glucose cells of
    all entries. *)
Lemma sorted_frame_observations entries sgv :
  col_sgv (sorted_frame argsort entries (e_date <$> entries)) = Some sgv →
  sgv ≡ₚ e_sgv <$> entries ∧ observations sgv ≡ₚ omap e_sgv entries.
Proof.
  rewrite sorted_frame_sgv.
  destruct (json_column e_sgv entries) as [col|] eqn:Hcol; [|done].
  apply json_column_Some in Hcol as ->. intros [= <-].
  assert (take_rows (nargsort argsort (e_date <$> entries)) (e_sgv <$> entries)
          ≡ₚ e_sgv <$> entries) as Hperm.
  { apply take_rows_Permutation. rewrite length_fmap, <- (length_fmap e_date).
    by apply nargsort_Permutation. }
  split; [done|]. unfold observations. by rewrite Hperm, omap_id_fmap.
Qed.

End Claims.

(** * Differencing and smoothing per day *)

Example diff_not_of_raw :
  sgv_diff2 (int_column [100; 105; 95; 110; 108; 120; 115])
  = [None; None; None; None; None; Some (7 # 4)%Q; Some (5 # 4)%Q]
  ∧ diff (sgv_diff (int_column [100; 105; 95; 110; 108; 120; 115]))
    = [None; None; Some (-15)%Q; Some 25%Q; Some (-17)%Q; Some 14%Q; Some (-17)%Q].
Proof. split; reflexivity. Qed.





(** C10: in every day group the smoothed second derivative is undefined
    at every position below 8, so a day with fewer than 9 readings has no
    defined smoothed second derivative at all; with 9 readings present
    position 8 is defined. *)
Theorem second_derivative_smoothed_starts_at_8 (sgv : list cell) :
  (∀ i c, (i < 8)%nat → sgv_diff2_smooth sgv !! i = Some c → c = None)
  ∧ ((length sgv < 9)%nat → Forall (λ c, c = None) (sgv_diff2_smooth sgv))
  ∧ (∀ j c, (j < 4)%nat → sgv_diff_smooth sgv !! j = Some c → c = None)
  ∧ (∀ j c, (j < 5)%nat → sgv_diff2 sgv !! j = Some c → c = None)
  ∧ sgv_diff2_smooth (int_column [100; 105; 95; 110; 108; 120; 115; 111; 109])
    = [None; None; None; None; None; None; None; None; Some (-7 # 16)%Q].
Proof.
  split; [apply sgv_diff2_smooth_early|]. split; [|split; [|split]].
  - intros Hlen. apply Forall_lookup. intros i c Hc.
    apply (sgv_diff2_smooth_early sgv i c); [|done].
    apply lookup_lt_Some in Hc.
    destruct (length_derived sgv) as (_ & _ & _ & Hl). lia.
  - apply sgv_diff_smooth_early.
  - apply sgv_diff2_early.
  - reflexivity.
Qed.

Lemma second_derivative_smoothed_starts_at_8_witness :
  Forall (λ c, c = None)
    (sgv_diff2_smooth (int_column [100; 105; 95; 110; 108; 120; 115; 111])).
Proof.
  apply (second_derivative_smoothed_starts_at_8
           (int_column [100; 105; 95; 110; 108; 120; 115; 111])).
  cbn. lia.
Defined.

(** * Sorting by timestamp *)

Section SortClaims.
Variable argsort : list Z → list nat.
Hypothesis argsort_sorts : sorts argsort.
Implicit Types (entries : list entry) (df g : frame) (k : Z).




(** The rows of the sorted frame and of the groups, and what is shown,
    for a response that has some timestamp. *)
Lemma response_structure entries :
  Exists (λ e, is_Some (e_date e)) entries → representable entries →
  ∃ df groups,
    series_frame argsort entries = inr df
    ∧ sort_and_partition argsort entries = inr groups
    ∧ index df ≡ₚ seq 0 (length entries)
    ∧ concat (index <$> groups.*2) ≡ₚ positions is_Some (e_date <$> entries)
    ∧ Forall (λ item,
                col_dateTime item.2 = Some (take_rows (index item.2) (e_date <$> entries))
                ∧ col_sgv item.2
                  = take_rows (index item.2) <$> json_column e_sgv entries) groups
    ∧ (Exists (λ e, is_Some (e_sgv e)) entries →
       ∃ sgv, col_sgv df = Some sgv
              ∧ observations sgv ≡ₚ omap e_sgv entries
              ∧ rendered argsort entries
                = (groups ≫= group_events) ++ statistics_events sgv).
Proof.
  intros Hex Hrep.
  destruct (sort_and_partition_ok argsort entries Hex Hrep) as (groups & Hgroups & Hgb).
  exists (sorted_frame argsort entries (e_date <$> entries)), groups.
  split; [by apply series_frame_ok|]. split; [done|].
  split; [by apply sorted_frame_index_Permutation|].
  split; [by apply (groups_concat_Permutation argsort argsort_sorts)|]. split.
  - apply Forall_forall. intros [k g] Hin.
    destruct (group_rows argsort argsort_sorts _ _ _ _ Hgroups Hin)
      as (_ & _ & Hdt & Hsgv & _). done.
  - intros Hsgv.
    exists (take_rows (nargsort argsort (e_date <$> entries)) (e_sgv <$> entries)).
    assert (col_sgv (sorted_frame argsort entries (e_date <$> entries))
            = Some (take_rows (nargsort argsort (e_date <$> entries)) (e_sgv <$> entries)))
      as Hcol.
    { rewrite sorted_frame_sgv, (json_column_is_Some _ _ Hsgv). done. }
    split; [done|]. split; [by apply (sorted_frame_observations argsort)|].
    unfold rendered.
    destruct entries as [|e0 entries]; [by apply Exists_nil in Hex|].
    by rewrite (series_frame_ok argsort _ Hex Hrep), Hgb, Hcol.
Qed.


End SortClaims.

(** * Concrete responses *)


(** Nothing in what a sorting routine must deliver fixes the order of a
    tie: a routine that sorts may swap two entries of equal timestamp. *)
Example sorting_does_not_fix_ties :
  sorts backwards_argsort
  ∧ ∃ df, series_frame backwards_argsort [reading 0 100; reading 0 101] = inr df
          ∧ index df = [1; 0]%nat
          ∧ ¬ keeps_tie_order [reading 0 100; reading 0 101] (index df).
Proof.
  split; [apply backwards_argsort_sorts|].
  eexists. split; [vm_compute; reflexivity|]. split; [reflexivity|].
  intros Hstable. assert (1 < 0)%nat as Hlt; [|lia].
  apply (Hstable 0%nat 1%nat 1%nat 0%nat 0); [lia|reflexivity..].
Qed.

(** The same response under a merge sort keeps the order of the tie. *)
Example mergesort_keeps_tie :
  ∃ df, series_frame mergesort_argsort newest_first_with_tie = inr df
        ∧ index df = [17; 16; 15; 14; 13; 12; 11; 10; 9; 8; 7; 6; 5; 3; 4; 2; 1; 0]%nat.
Proof. eexists. split; [vm_compute; reflexivity|reflexivity]. Qed.


(** A complete run on [two_days] with NumPy's quicksort. *)
Example run_two_days (σ : globals) :
  emitted (fetch_glucose_data numpy.aquicksort two_days σ)
  = [ st_subheader Glucose 0;
      st_pyplot Glucose [Some 0; Some 300000] [Some 100%Q; Some 105%Q];
      st_subheader FirstDerivative 0;
      st_pyplot FirstDerivative [Some 0; Some 300000] [None; None];
      st_subheader SecondDerivative 0;
      st_pyplot SecondDerivative [Some 0; Some 300000] [None; None];
      st_subheader Glucose 1;
      st_pyplot Glucose [Some 86400000] [Some 110%Q];
      st_subheader FirstDerivative 1;
      st_pyplot FirstDerivative [Some 86400000] [None];
      st_subheader SecondDerivative 1;
      st_pyplot SecondDerivative [Some 86400000] [None];
      st_subheader_statistics;
      st_write MinimumBG (Plain (Some 100));
      st_write MaximumBG (Plain (Some 110));
      st_write AverageBG (TwoDecimals (Some 10500));
      st_write StandardDeviation (TwoDecimals (Some 500)) ].
Proof. rewrite (proj1 (fetch_run _ _ σ)). vm_compute. reflexivity. Qed.






(** * Statistics *)















Section StatisticsClaim.
Variable argsort : list Z → list nat.
Hypothesis argsort_sorts : sorts argsort.


End StatisticsClaim.



(** * The empty response and purity *)

Lemma rendered_no_warning argsort entries :
  entries ≠ [] → st_warning ∉ rendered argsort entries.
Proof.
  intros Hne. unfold rendered. destruct entries as [|e0 entries]; [done|].
  destruct (series_frame argsort (e0 :: entries)) as [e|df].
  { rewrite list_elem_of_singleton. done. }
  destruct (groupby_date df) as [e|groups].
  { rewrite list_elem_of_singleton. done. }
  destruct (col_sgv df) as [sgv|].
  - rewrite elem_of_app. intros [Hin|Hin].
    + apply list_elem_of_bind in Hin as ([d g] & Hin & _).
      unfold group_events, day_events in Hin.
      rewrite !elem_of_cons, elem_of_nil in Hin. naive_solver.
    + unfold statistics_events in Hin.
      rewrite !elem_of_cons, elem_of_nil in Hin. naive_solver.
  - destruct groups as [|item groups]; cbn;
      rewrite !elem_of_cons, elem_of_nil; naive_solver.
Qed.

(** C8: an empty response is not an error: the script shows the
    "no entries found" notice and nothing else, no chart, no statistics and
    no error message, and finishes normally; the notice is shown for no
    other response. *)
Theorem empty_response_shows_notice (argsort : list Z → list nat) (σ : globals) :
  fetch_glucose_data argsort [] σ = Outcome [st_warning] σ (inr ())
  ∧ rendered argsort [] = [st_warning]
  ∧ (∀ entries, entries ≠ [] → st_warning ∉ rendered argsort entries).
Proof.
  split; [reflexivity|]. split; [reflexivity|]. apply rendered_no_warning.
Qed.

Lemma empty_response_shows_notice_witness :
  st_warning ∉ rendered numpy.aquicksort two_days.
Proof.
  apply (empty_response_shows_notice numpy.aquicksort (Globals None None None None)).
  done.
Defined.

(** C9: what a run shows is a function of the response alone.  From any
    binding of the global names the same events are emitted and the run
    ends normally; running again from the names left by a previous
    run shows the same; the loop rebinds only [date] and [group], leaving
    [df] and [grouped] as they were, and the columns it adds to a group
    are computed from that group's glucose column. *)
Theorem processing_is_pure (argsort : list Z → list nat) (entries : list entry) :
  (∀ σ, emitted (fetch_glucose_data argsort entries σ) = rendered argsort entries
        ∧ result (fetch_glucose_data argsort entries σ) = inr ())
  ∧ (∀ σ1 σ2, emitted (fetch_glucose_data argsort entries σ1)
              = emitted (fetch_glucose_data argsort entries σ2))
  ∧ (∀ σ, emitted (fetch_glucose_data argsort entries
                     (store (fetch_glucose_data argsort entries σ)))
          = emitted (fetch_glucose_data argsort entries σ))
  ∧ (∀ df groups od og,
       Forall (λ item, is_Some (col_dateTime item.2) ∧ is_Some (col_sgv item.2)) groups →
       v_df (store (plot_days (Globals (Some df) (Some groups) od og))) = Some df
       ∧ v_grouped (store (plot_days (Globals (Some df) (Some groups) od og)))
         = Some groups)
  ∧ (∀ d g x y σ,
       col_dateTime g = Some x → col_sgv g = Some y →
       emitted (day_body (d, g) σ) = day_events d x y
       ∧ store (day_body (d, g) σ) = rebind_day σ d (with_derivatives g y)
       ∧ col_sgv (with_derivatives g y) = Some y).
Proof.
  split; [intros σ; apply fetch_run|]. split.
  { intros σ1 σ2. by rewrite !(proj1 (fetch_run argsort entries _)). }
  split.
  { intros σ. by rewrite !(proj1 (fetch_run argsort entries _)). }
  split.
  - intros df groups od og Hcols. rewrite plot_days_run by done.
    destruct (last_day_eta df groups od og) as (od' & og' & ->). done.
  - intros d g x y σ Hx Hy. rewrite (day_body_run d g x y σ Hx Hy). done.
Qed.

Lemma processing_is_pure_witness :
  emitted (day_body (0, Frame [0%nat] None (Some [Some 0]) (Some [Some 100])
                             None None None None)
                    (Globals None None None None))
  = day_events 0 [Some 0] [Some 100].
Proof.
  destruct (processing_is_pure numpy.aquicksort []) as (_ & _ & _ & _ & H).
  apply H; reflexivity.
Defined.

(** * The page: validation, the request and the handlers *)

Section PageFacts.
Variable mktime : Z → Z.
Variable requests_get : request → response.
Variable argsort : list Z → list nat.
Implicit Types (inp : sidebar) (r : request).

(** The validation reads only the name that the selected method has
    bound. *)
Lemma credential_missing_read inp :
  credential_missing (auth_option inp) (read_credentials inp)
  = inr (negb (truthy (secret_text inp))).
Proof.
  unfold credential_missing, read_credentials.
  destruct (auth_option inp); cbn; by destruct (truthy (secret_text inp)).
Qed.

Lemma truthy_true s : truthy s = true ↔ s ≠ "".
Proof. unfold truthy. apply bool_decide_eq_true. Qed.

Lemma truthy_false s : truthy s = false ↔ s = "".
Proof.
  unfold truthy. rewrite bool_decide_eq_false. split; [|naive_solver].
  intros H. by destruct (decide (s = "")).
Qed.

Lemma page_cases inp :
  page mktime requests_get argsort inp
  = if button inp then
      if truthy (base_url inp) then
        if truthy (secret_text inp) then fetch mktime requests_get argsort inp
        else [st_sidebar_error_credential (auth_option inp)]
      else [st_sidebar_error_url]
    else [st_info].
Proof.
  unfold page. rewrite credential_missing_read.
  destruct (button inp), (truthy (base_url inp)), (truthy (secret_text inp)); done.
Qed.

Lemma fetch_cases inp :
  ∃ rest, fetch mktime requests_get argsort inp
          = http_get (entries_request mktime inp) :: rest
          ∧ (∀ r e, (http_get r ∉ rest) ∧ (uncaught e ∉ rest))
          ∧ ∀ ev, st_shown ev ∈ rest →
              ∃ code entries,
                requests_get (entries_request mktime inp) = Response code (Some entries)
                ∧ ¬ (400 ≤ code < 600)
                ∧ rest = st_shown <$> rendered argsort entries.
Proof.
  unfold fetch. eexists. split; [reflexivity|].
  assert (∀ f : page_event,
            (∀ r, f ≠ http_get r) → (∀ e, f ≠ uncaught e) → (∀ ev, f ≠ st_shown ev) →
            (∀ r e, (http_get r ∉ [f]) ∧ (uncaught e ∉ [f]))
            ∧ ∀ ev, st_shown ev ∈ [f] →
                ∃ code entries,
                  requests_get (entries_request mktime inp) = Response code (Some entries)
                  ∧ ¬ (400 ≤ code < 600)
                  ∧ [f] = st_shown <$> rendered argsort entries) as Hone.
  { intros f H1 H2 H3. split.
    - intros r e. split; intros H%list_elem_of_singleton; naive_solver.
    - intros ev H%list_elem_of_singleton. naive_solver. }
  destruct (requests_get (entries_request mktime inp)) as [|code [entries|]] eqn:Hresp.
  - by apply Hone.
  - case_bool_decide; [by apply Hone|]. split.
    + intros r e. rewrite !list_elem_of_fmap. naive_solver.
    + intros ev _. exists code, entries.
      by rewrite (proj1 (fetch_run argsort entries fresh)).
  - case_bool_decide; by apply Hone.
Qed.

(** X1: a request goes out exactly when the button is pressed with a
    non-empty base URL and a non-empty credential; it is then the first
    thing the page does and the only request; and the validation never
    reads the name of the method that was not selected. *)
Theorem request_needs_url_and_credential inp :
  (∀ e, uncaught e ∉ page mktime requests_get argsort inp)
  ∧ ((∃ r, http_get r ∈ page mktime requests_get argsort inp)
     ↔ button inp = true ∧ base_url inp ≠ "" ∧ secret_text inp ≠ "")
  ∧ (∀ r, http_get r ∈ page mktime requests_get argsort inp →
       ∃ rest, page mktime requests_get argsort inp = http_get r :: rest
               ∧ ∀ r', http_get r' ∉ rest).
Proof.
  rewrite page_cases. rewrite <- !truthy_true.
  destruct (fetch_cases inp) as (rest & Hfetch & Hrest & _). rewrite Hfetch.
  assert (∀ f : page_event,
            (∀ r, f ≠ http_get r) → (∀ e, f ≠ uncaught e) →
            (∀ e, uncaught e ∉ [f]) ∧ ¬ ∃ r, http_get r ∈ [f]) as Hone.
  { intros f H1 H2. split.
    - intros e H%list_elem_of_singleton. naive_solver.
    - intros [r H%list_elem_of_singleton]. naive_solver. }
  destruct (button inp), (truthy (base_url inp)), (truthy (secret_text inp)).
  1:{ split; [|split].
      - intros e [H|H]%elem_of_cons; [done|]. by apply (Hrest (entries_request mktime inp) e).
      - split; [done|]. intros _. eexists. left.
      - intros r [[= ->]|H]%elem_of_cons.
        + exists rest. split; [done|]. intros r'. apply (Hrest r' NameError).
        + by apply (Hrest r NameError) in H. }
  all: match goal with |- context [[?f]] => destruct (Hone f) as [Hu Hr]; [done..|] end.
  all: split; [done|split]; [split; [done|intros (? & ? & ?); congruence]|].
  all: intros r Hin; destruct Hr; eauto.
Qed.

(** X2: every request that goes out is addressed to the entries endpoint
    under the base URL, carries exactly one header, the non-empty
    credential under the name of the selected method, and asks for at
    most 10000 entries of type sgv between midnight of the start date and
    the last millisecond of the end date. *)
Theorem request_carries_the_credential inp r :
  http_get r ∈ page mktime requests_get argsort inp →
  url r = base_url inp +:+ "/api/v1/entries.json"
  ∧ req_headers r
    = [match auth_option inp with
       | API_Secret => ("api-secret", secret_text inp)
       | JWT_Token => ("Authorization", "Bearer " +:+ secret_text inp)
       end]
  ∧ secret_text inp ≠ ""
  ∧ find_date_gte r = mktime (start_date inp) * 1000
  ∧ find_date_lte r = mktime (end_date inp) * 1000 + 86399999
  ∧ find_type r = "sgv" ∧ count r = 10000.
Proof.
  rewrite page_cases.
  destruct (fetch_cases inp) as (rest & Hfetch & Hrest & _). rewrite Hfetch.
  destruct (button inp), (truthy (base_url inp)),
    (truthy (secret_text inp)) eqn:Hsecret;
    rewrite ?list_elem_of_singleton, ?elem_of_cons; try naive_solver.
  intros [[= ->]|Hin]; [|by apply (Hrest r NameError) in Hin].
  apply truthy_true in Hsecret as Hne.
  unfold entries_request, read_credentials. cbn.
  destruct (auth_option inp); cbn; rewrite Hsecret; done.
Qed.

(** X3: a chart, a statistic or a processing error appears only after a
    response whose status is not an error status and whose body parses;
    what is shown then is what the processing renders for the parsed
    entries. *)
Theorem charts_need_a_parsed_response inp ev :
  st_shown ev ∈ page mktime requests_get argsort inp →
  ∃ code entries,
    requests_get (entries_request mktime inp) = Response code (Some entries)
    ∧ ¬ (400 ≤ code < 600)
    ∧ ev ∈ rendered argsort entries
    ∧ page mktime requests_get argsort inp
      = http_get (entries_request mktime inp) :: (st_shown <$> rendered argsort entries).
Proof.
  rewrite page_cases.
  destruct (fetch_cases inp) as (rest & Hfetch & _ & Hrest). rewrite Hfetch.
  destruct (button inp), (truthy (base_url inp)), (truthy (secret_text inp));
    rewrite ?list_elem_of_singleton, ?elem_of_cons; try naive_solver.
  intros [[=]|Hin]. destruct (Hrest ev Hin) as (code & entries & Hresp & Hcode & ->).
  exists code, entries. repeat (split; [done|]). split; [|done].
  apply list_elem_of_fmap in Hin as (ev' & [= ->] & Hin). done.
Qed.

(** X4: an error status is reported by the first handler and nothing of
    the response is processed, whatever its body holds. *)
Theorem error_status_stops_the_run inp code body :
  button inp = true → base_url inp ≠ "" → secret_text inp ≠ "" →
  requests_get (entries_request mktime inp) = Response code body →
  400 ≤ code < 600 →
  page mktime requests_get argsort inp
  = [http_get (entries_request mktime inp); st_error_http code].
Proof.
  intros Hbutton Hurl%truthy_true Hsecret%truthy_true Hresp Hcode.
  rewrite page_cases, Hbutton, Hurl, Hsecret. unfold fetch. rewrite Hresp.
  by rewrite bool_decide_eq_true_2.
Qed.

End PageFacts.

Lemma request_needs_url_and_credential_witness :
  ∃ r, http_get r
       ∈ page (mktime_fixed 0) (serves 200 two_days) mergesort_argsort sample_sidebar.
Proof.
  apply (proj2 (proj1 (proj2 (request_needs_url_and_credential (mktime_fixed 0)
                                (serves 200 two_days) mergesort_argsort sample_sidebar)))).
  by repeat split.
Defined.

Lemma request_carries_the_credential_witness :
  let r := entries_request (mktime_fixed 3600) sample_sidebar in
  url r = "https://ns.example/api/v1/entries.json"
  ∧ req_headers r = [("Authorization", "Bearer t0ken")]
  ∧ "t0ken" ≠ ""
  ∧ find_date_gte r = -3600000
  ∧ find_date_lte r = 172799999 - 3600000
  ∧ find_type r = "sgv" ∧ count r = 10000.
Proof.
  apply (request_carries_the_credential (mktime_fixed 3600) (serves 200 two_days)
           mergesort_argsort sample_sidebar).
  vm_compute. apply list_elem_of_here.
Defined.

Lemma charts_need_a_parsed_response_witness :
  ∃ code entries,
    serves 200 two_days (entries_request (mktime_fixed 0) sample_sidebar)
    = Response code (Some entries)
    ∧ ¬ (400 ≤ code < 600)
    ∧ st_subheader_statistics ∈ rendered mergesort_argsort entries
    ∧ page (mktime_fixed 0) (serves 200 two_days) mergesort_argsort sample_sidebar
      = http_get (entries_request (mktime_fixed 0) sample_sidebar)
        :: (st_shown <$> rendered mergesort_argsort entries).
Proof.
  apply (charts_need_a_parsed_response (mktime_fixed 0) (serves 200 two_days)
           mergesort_argsort sample_sidebar st_subheader_statistics).
  rewrite page_cases. cbn [button sample_sidebar base_url secret_text].
  unfold fetch, serves. rewrite bool_decide_eq_false_2 by lia.
  rewrite (proj1 (fetch_run mergesort_argsort two_days fresh)).
  right. apply list_elem_of_fmap. exists st_subheader_statistics. split; [done|].
  vm_compute. do 12 right. left.
Defined.

Lemma error_status_stops_the_run_witness :
  page (mktime_fixed 0) (serves 503 two_days) mergesort_argsort sample_sidebar
  = [http_get (entries_request (mktime_fixed 0) sample_sidebar); st_error_http 503].
Proof.
  apply (error_status_stops_the_run (mktime_fixed 0) (serves 503 two_days)
           mergesort_argsort sample_sidebar 503 (Some two_days));
    [reflexivity|done|done|reflexivity|lia].
Defined.

(** X5: in a time zone with a fixed offset from UTC, the instants of the
    query range are exactly those whose local calendar date lies between
    the start date and the end date, both included. *)
Theorem query_range_is_whole_local_days (utc_offset_s : Z) (inp : sidebar) (t : Z) :
  start_date_unix (mktime_fixed utc_offset_s) inp ≤ t
    ≤ end_date_unix (mktime_fixed utc_offset_s) inp
  ↔ start_date inp ≤ local_date (utc_offset_s * 1000) t ≤ end_date inp.
Proof.
  unfold start_date_unix, end_date_unix, mktime_fixed, local_date, ms_per_day.
  pose proof (Z.div_mod (t + utc_offset_s * 1000) 86400000 ltac:(lia)) as Hdm.
  pose proof (Z.mod_pos_bound (t + utc_offset_s * 1000) 86400000 ltac:(lia)) as Hmod.
  lia.
Qed.

Lemma query_range_is_whole_local_days_witness :
  start_date_unix (mktime_fixed 7200) sample_sidebar ≤ -7200000
    ≤ end_date_unix (mktime_fixed 7200) sample_sidebar.
Proof.
  apply (proj2 (query_range_is_whole_local_days 7200 sample_sidebar (-7200000))).
  vm_compute. split; discriminate.
Defined.

(** * What a response makes the page show, for any sorting routine *)

Section AnyArgsort.
Variable argsort : list Z → list nat.
Implicit Types (entries : list entry) (df g : frame) (k d : Z) (c : chart).

(** Whatever the sorting routine returns, the sorted frame only refers to
    rows of the response. *)
Lemma nargsort_bound_any (keys : list (option Z)) :
  Forall (λ i, i < length keys)%nat (nargsort argsort keys).
Proof.
  unfold nargsort. apply Forall_app. split; [|apply positions_bound].
  apply Forall_forall. intros i (j & _ & Hj)%elem_of_take_rows.
  apply list_elem_of_lookup_2 in Hj. revert i Hj. apply Forall_forall, positions_bound.
Qed.

(** The rows of one group. *)
Lemma group_rows_any entries df groups k g :
  series_frame argsort entries = inr df → groupby_date df = inr groups →
  (k, g) ∈ groups →
  ∃ ix, ix ≠ [] ∧ Forall (λ i, i < length entries)%nat ix
    ∧ col_dateTime g = Some (take_rows ix (e_date <$> entries))
    ∧ col_sgv g = take_rows ix <$> json_column e_sgv entries
    ∧ Forall (λ cl, ∃ t, cl = Some t ∧ t `div` ms_per_day = k)
             (take_rows ix (e_date <$> entries)).
Proof.
  intros Hdf Hgroups Hin.
  destruct (series_frame_inv _ _ _ Hdf) as (ms & Hms & _ & ->).
  apply json_column_Some in Hms as ->.
  set (nargs := nargsort argsort (e_date <$> entries)) in *.
  assert (Forall (λ i, i < length (e_date <$> entries))%nat nargs) as Hnargs
    by apply nargsort_bound_any.
  set (datecol := dt_date (take_rows nargs (e_date <$> entries))) in *.
  unfold groupby_date in Hgroups. cbn [col_date set_date] in Hgroups.
  injection Hgroups as <-.
  apply list_elem_of_fmap in Hin as (k' & [= <- ->] & Hk).
  set (p := group_positions datecol k).
  assert (length datecol = length nargs) as Hlen.
  { unfold datecol, dt_date. by rewrite length_fmap, length_take_rows. }
  exists (take_rows p nargs). split; [|split; [|split; [|split]]].
  - apply elem_of_group_keys, list_elem_of_lookup in Hk as [i Hi].
    assert (i ∈ p) as Hip by (apply elem_of_positions; eauto).
    destruct (lookup_lt_is_Some_2 nargs i) as [j Hj].
    { rewrite <- Hlen. by eapply lookup_lt_Some. }
    assert (j ∈ take_rows p nargs) as Hjp by (apply elem_of_take_rows; eauto).
    intros Hnil. rewrite Hnil in Hjp. by apply elem_of_nil in Hjp.
  - apply Forall_forall. intros j (i & _ & Hj)%elem_of_take_rows.
    apply list_elem_of_lookup_2 in Hj. rewrite <- (length_fmap e_date).
    revert j Hj. by apply Forall_forall.
  - cbn [take_frame col_dateTime set_date set_dateTime fmap option_fmap option_map].
    f_equal. symmetry. by apply take_rows_take_rows.
  - cbn [take_frame col_sgv set_date set_dateTime DataFrame].
    destruct (json_column e_sgv entries) as [sgv|] eqn:Hsgv; [|done]. cbn.
    f_equal. symmetry. apply take_rows_take_rows.
    apply json_column_Some in Hsgv as ->.
    by rewrite length_fmap, <- (length_fmap e_date).
  - rewrite take_rows_take_rows by done.
    apply Forall_forall. intros cl (i & Hi & Hcl)%elem_of_take_rows.
    apply elem_of_positions in Hi as (dd & Hd & ->).
    unfold datecol, dt_date in Hd. rewrite list_lookup_fmap, Hcl in Hd.
    destruct cl as [t|]; [|done]. cbn in Hd. exists t. split; [done|]. congruence.
Qed.

(** A heading names the date of a group. *)
Lemma subheader_inv entries c d :
  st_subheader c d ∈ rendered argsort entries →
  ∃ df groups g,
    series_frame argsort entries = inr df ∧ groupby_date df = inr groups
    ∧ (d, g) ∈ groups.
Proof.
  unfold rendered. destruct entries as [|e0 entries].
  { by intros ?%list_elem_of_singleton. }
  destruct (series_frame argsort (e0 :: entries)) as [e|df] eqn:Hdf; [by intros ?%list_elem_of_singleton|].
  destruct (groupby_date df) as [e|groups] eqn:Hgroups; [by intros ?%list_elem_of_singleton|].
  destruct (col_sgv df) as [sgv|] eqn:Hsgv.
  - intros [Hin|Hin]%elem_of_app.
    + apply list_elem_of_bind in Hin as ([k g] & Hev & Hg).
      exists df, groups, g. repeat (split; [done|]).
      unfold group_events, day_events in Hev. cbn [fst snd] in Hev.
      repeat (apply elem_of_cons in Hev as [Hev|Hev]; [by simplify_eq|]).
      by apply elem_of_nil in Hev.
    + unfold statistics_events in Hin.
      repeat (apply elem_of_cons in Hin as [Hin|Hin]; [done|]).
      by apply elem_of_nil in Hin.
  - destruct groups as [|[k g] groups].
    + intros Hin. repeat (apply elem_of_cons in Hin as [Hin|Hin]; [done|]).
      by apply elem_of_nil in Hin.
    + intros Hin. cbn in Hin.
      apply elem_of_cons in Hin as [[= -> ->]|Hin].
      * exists df, ((k, g) :: groups), g. repeat (split; [done|]). left.
      * by apply list_elem_of_singleton in Hin.
Qed.

(** A chart plots the time and glucose columns of a group. *)
Lemma pyplot_inv entries c x y :
  st_pyplot c x y ∈ rendered argsort entries →
  ∃ df groups k g,
    series_frame argsort entries = inr df ∧ groupby_date df = inr groups
    ∧ (k, g) ∈ groups ∧ is_Some (col_sgv df)
    ∧ x = default [] (col_dateTime g)
    ∧ y = chart_values c (float_column (default [] (col_sgv g))).
Proof.
  unfold rendered. destruct entries as [|e0 entries].
  { by intros ?%list_elem_of_singleton. }
  destruct (series_frame argsort (e0 :: entries)) as [e|df] eqn:Hdf; [by intros ?%list_elem_of_singleton|].
  destruct (groupby_date df) as [e|groups] eqn:Hgroups; [by intros ?%list_elem_of_singleton|].
  destruct (col_sgv df) as [sgv|] eqn:Hsgv.
  - intros [Hin|Hin]%elem_of_app.
    + apply list_elem_of_bind in Hin as ([k g] & Hev & Hg).
      unfold group_events, day_events in Hev. cbn [fst snd] in Hev.
      assert (x = default [] (col_dateTime g)
              ∧ y = chart_values c (float_column (default [] (col_sgv g)))) as [-> ->].
      { repeat (apply elem_of_cons in Hev as [Hev|Hev]; [by simplify_eq|]).
        by apply elem_of_nil in Hev. }
      exists df, groups, k, g. rewrite Hsgv. eauto 10.
    + unfold statistics_events in Hin.
      repeat (apply elem_of_cons in Hin as [Hin|Hin]; [done|]).
      by apply elem_of_nil in Hin.
  - destruct groups as [|[k g] groups]; intros Hin; cbn in Hin;
      repeat (apply elem_of_cons in Hin as [Hin|Hin]; [done|]);
      by apply elem_of_nil in Hin.
Qed.

(** The rows behind a chart. *)
Lemma chart_rows entries c x y :
  st_pyplot c x y ∈ rendered argsort entries →
  ∃ k ix, ix ≠ [] ∧ Forall (λ i, i < length entries)%nat ix
    ∧ x = take_rows ix (e_date <$> entries)
    ∧ y = chart_values c (float_column (take_rows ix (e_sgv <$> entries)))
    ∧ Forall (λ cl, ∃ t, cl = Some t ∧ t `div` ms_per_day = k) x.
Proof.
  intros (df & groups & k & g & Hdf & Hgroups & Hin & [sgv Hsgv] & -> & ->)%pyplot_inv.
  destruct (group_rows_any _ _ _ _ _ Hdf Hgroups Hin) as (ix & Hne & Hix & Hx & Hy & Hk).
  exists k, ix. rewrite Hx, Hy. repeat (split; [done|]).
  destruct (series_frame_inv _ _ _ Hdf) as (ms & _ & _ & ->).
  cbn [col_sgv set_date take_frame set_dateTime DataFrame] in Hsgv.
  destruct (json_column e_sgv entries) as [col|] eqn:Hcol; [|done].
  apply json_column_Some in Hcol as ->. done.
Qed.

Lemma length_chart_values c (sgv : list cell) : length (chart_values c sgv) = length sgv.
Proof. destruct c; cbn; [done|apply length_derived..]. Qed.

(** X6: in every chart the time axis and the value axis have the same
    length, one point per row of the day, and every time on the axis falls
    on one and the same UTC date; this holds for any sorting routine. *)
Theorem charts_are_aligned entries σ c x y :
  st_pyplot c x y ∈ emitted (fetch_glucose_data argsort entries σ) →
  length x = length y ∧ x ≠ []
  ∧ ∃ k, Forall (λ cl, ∃ t, cl = Some t ∧ t `div` ms_per_day = k) x.
Proof.
  rewrite (proj1 (fetch_run argsort entries σ)).
  intros (k & ix & Hne & Hix & -> & -> & Hk)%chart_rows.
  rewrite length_chart_values. unfold float_column.
  rewrite length_fmap, !length_take_rows by by rewrite length_fmap.
  split; [done|]. split; [|by exists k].
  intros Hnil%(f_equal length). rewrite length_take_rows in Hnil by by rewrite length_fmap.
  by destruct ix.
Qed.

(** X7: no value is carried from one day into the next: in every chart of
    the smoothed first derivative the first four points of the day are
    undefined, and in every chart of the smoothed second derivative the
    first eight. *)
Theorem days_do_not_carry_over entries σ c x y i cl :
  st_pyplot c x y ∈ emitted (fetch_glucose_data argsort entries σ) →
  y !! i = Some cl →
  (c = FirstDerivative → (i < 4)%nat → cl = None)
  ∧ (c = SecondDerivative → (i < 8)%nat → cl = None).
Proof.
  rewrite (proj1 (fetch_run argsort entries σ)).
  intros (k & ix & _ & _ & _ & -> & _)%chart_rows Hcl.
  split; intros -> Hi; cbn [chart_values] in Hcl.
  - by eapply sgv_diff_smooth_early.
  - by eapply sgv_diff2_smooth_early.
Qed.

(** X8: a non-empty response in which no entry has a [date] makes the
    conversion fail on the missing column; the generic handler reports
    the KeyError and nothing else is shown. *)
Theorem response_without_timestamps entries σ :
  entries ≠ [] → Forall (λ e, e_date e = None) entries →
  emitted (fetch_glucose_data argsort entries σ) = [st_error (KeyError c_date)]
  ∧ result (fetch_glucose_data argsort entries σ) = inr ().
Proof.
  intros Hne Hall. split; [|apply fetch_run].
  rewrite (proj1 (fetch_run argsort entries σ)). unfold rendered.
  destruct entries as [|e0 entries]; [done|].
  assert (series_frame argsort (e0 :: entries) = inl (KeyError c_date)) as ->; [|done].
  unfold series_frame. cbn [DataFrame col_date]. unfold json_column.
  destruct (existsb _ _) eqn:E; [|done].
  apply existsb_exists in E as (e & He%list_elem_of_In & Hf%bool_decide_eq_true).
  eapply Forall_forall in Hall; [|exact He]. rewrite Hall in Hf. by destruct Hf.
Qed.


End AnyArgsort.

Lemma charts_are_aligned_witness :
  let x := [Some 0; Some 300000] in
  let y := float_column [Some 100; Some 105] in
  length x = length y ∧ x ≠ []
  ∧ ∃ k, Forall (λ cl, ∃ t, cl = Some t ∧ t `div` ms_per_day = k) x.
Proof.
  apply (charts_are_aligned mergesort_argsort two_days fresh Glucose).
  vm_compute. right. left.
Defined.

Lemma days_do_not_carry_over_witness :
  (FirstDerivative = FirstDerivative → (0 < 4)%nat → @None Q = None)
  ∧ (FirstDerivative = SecondDerivative → (0 < 8)%nat → @None Q = None).
Proof.
  apply (days_do_not_carry_over mergesort_argsort two_days fresh FirstDerivative
           [Some 86400000] [None] 0%nat None); [|reflexivity].
  vm_compute. do 9 right. left.
Defined.

Lemma response_without_timestamps_witness :
  emitted (fetch_glucose_data mergesort_argsort [Entry None (Some 100)] fresh)
  = [st_error (KeyError c_date)]
  ∧ result (fetch_glucose_data mergesort_argsort [Entry None (Some 100)] fresh) = inr ().
Proof.
  apply (response_without_timestamps mergesort_argsort [Entry None (Some 100)] fresh);
    [done|]. by repeat constructor.
Defined.


(** * The dates shown *)

(** The date of a heading is the UTC date of some entry, for any sorting
    routine. *)
Lemma heading_date_of_entry argsort (entries : list entry) (c : chart) (d : Z) :
  st_subheader c d ∈ rendered argsort entries →
  ∃ e t, e ∈ entries ∧ e_date e = Some t ∧ t `div` ms_per_day = d.
Proof.
  intros (df & groups & g & Hdf & Hgroups & Hin)%subheader_inv.
  destruct (group_rows_any _ _ _ _ _ _ Hdf Hgroups Hin) as (ix & Hne & Hix & _ & _ & Hd).
  destruct ix as [|i ix]; [done|]. apply Forall_cons_1 in Hix as [Hi _].
  destruct (lookup_lt_is_Some_2 entries i Hi) as [e He].
  rewrite (take_rows_cons_Some _ _ _ (e_date e)) in Hd
    by by rewrite list_lookup_fmap, He.
  apply Forall_cons_1 in Hd as [(t & Ht & Hdiv) _].
  exists e, t. split; [by eapply list_elem_of_lookup_2|]. done.
Qed.

Lemma heading_dates_app (c : chart) (l1 l2 : list ui_event) :
  heading_dates c (l1 ++ l2) = heading_dates c l1 ++ heading_dates c l2.
Proof. apply omap_app. Qed.

Lemma heading_dates_groups (c : chart) (groups : list (Z * frame)) :
  heading_dates c (groups ≫= group_events) = groups.*1.
Proof.
  induction groups as [|[k g] groups IH]; [done|].
  cbn [mbind list_bind]. rewrite heading_dates_app. fold (groups ≫= group_events).
  rewrite IH. by destruct c.
Qed.

Lemma heading_dates_statistics (c : chart) (sgv : list (option Z)) :
  heading_dates c (statistics_events sgv) = [].
Proof. done. Qed.

Section Dates.
Variable argsort : list Z → list nat.
Hypothesis argsort_sorts : sorts argsort.
Implicit Types (entries : list entry) (k d : Z).

Lemma sorted_timestamps_Permutation entries :
  sorted_timestamps argsort entries ≡ₚ omap e_date entries.
Proof. apply take_rows_Permutation, argsort_sorts. Qed.

(** The keys of the groups are the UTC dates of the entries, each once,
    in ascending order. *)
Lemma keys_of_response entries groups :
  sort_and_partition argsort entries = inr groups →
  StronglySorted Z.lt groups.*1
  ∧ ∀ k, k ∈ groups.*1
         ↔ ∃ e t, e ∈ entries ∧ e_date e = Some t ∧ t `div` ms_per_day = k.
Proof.
  intros Hgroups. rewrite (groups_keys argsort _ _ Hgroups).
  split; [apply group_keys_sorted|]. intros k.
  rewrite elem_of_group_keys. unfold sorted_dates.
  rewrite elem_of_app, !list_elem_of_fmap. split.
  - intros [(k' & [= ->] & (t & -> & Ht)%list_elem_of_fmap)|(? & _)%elem_of_replicate];
      [|done].
    rewrite sorted_timestamps_Permutation in Ht.
    apply list_elem_of_omap in Ht as (e & He & Ht). eauto.
  - intros (e & t & He & Ht & <-). left. eexists. split; [done|].
    apply list_elem_of_fmap. exists t. split; [done|].
    rewrite sorted_timestamps_Permutation. apply list_elem_of_omap. eauto.
Qed.

(** X10: for a response that is processed to the end, the headings of each
    kind of chart name the UTC dates of the entries, every date once and
    in strictly ascending order; a date has charts exactly when some entry
    has a timestamp on it. *)
Theorem headings_are_the_dates_of_the_entries entries σ (c : chart) :
  Exists (λ e, is_Some (e_date e)) entries → representable entries →
  Exists (λ e, is_Some (e_sgv e)) entries →
  let dates := heading_dates c (emitted (fetch_glucose_data argsort entries σ)) in
  StronglySorted Z.lt dates
  ∧ ∀ d, d ∈ dates ↔ ∃ e t, e ∈ entries ∧ e_date e = Some t ∧ t `div` ms_per_day = d.
Proof.
  intros Hdate Hrep Hsgv. rewrite (proj1 (fetch_run argsort entries σ)).
  destruct (response_structure argsort argsort_sorts entries Hdate Hrep)
    as (df & groups & _ & Hgroups & _ & _ & _ & Hstats).
  destruct (Hstats Hsgv) as (sgv & _ & _ & ->). cbn zeta.
  rewrite heading_dates_app, heading_dates_groups, heading_dates_statistics, app_nil_r.
  by apply keys_of_response.
Qed.

(** X11: when the entries have timestamps but none has an [sgv], the run
    stops at the first chart: the heading of the earliest date is shown,
    then the KeyError; no chart is drawn and no statistic is shown. *)
Theorem response_without_glucose_values entries σ :
  Exists (λ e, is_Some (e_date e)) entries → representable entries →
  Forall (λ e, e_sgv e = None) entries →
  ∃ d, emitted (fetch_glucose_data argsort entries σ)
       = [st_subheader Glucose d; st_error (KeyError c_sgv)]
       ∧ (∃ e t, e ∈ entries ∧ e_date e = Some t ∧ t `div` ms_per_day = d)
       ∧ ∀ e t, e ∈ entries → e_date e = Some t → d ≤ t `div` ms_per_day.
Proof.
  intros Hdate Hrep Hnone. rewrite (proj1 (fetch_run argsort entries σ)).
  destruct (sort_and_partition_ok argsort entries Hdate Hrep) as (groups & Hgroups & Hgb).
  destruct (keys_of_response _ _ Hgroups) as [Hsorted Hkeys].
  unfold rendered. destruct entries as [|e0 entries]; [by apply Exists_nil in Hdate|].
  set (es := e0 :: entries) in *.
  rewrite (series_frame_ok argsort es Hdate Hrep), Hgb.
  assert (col_sgv (sorted_frame argsort es (e_date <$> es)) = None) as ->.
  { rewrite sorted_frame_sgv. unfold json_column.
    destruct (existsb _ es) eqn:E; [|done].
    apply existsb_exists in E as (e & He%list_elem_of_In & Hf%bool_decide_eq_true).
    eapply Forall_forall in Hnone; [|exact He]. rewrite Hnone in Hf. by destruct Hf. }
  destruct groups as [|[d g] groups].
  { apply Exists_exists in Hdate as (e & He & [t Ht]).
    assert (t `div` ms_per_day ∈ (@nil (Z * frame)).*1) as Hin by (apply Hkeys; eauto).
    by apply elem_of_nil in Hin. }
  exists d. split; [done|]. split.
  - apply Hkeys. left.
  - intros e t He Ht.
    assert (t `div` ms_per_day ∈ ((d, g) :: groups).*1) as Hin by (apply Hkeys; eauto).
    rewrite fmap_cons in Hin, Hsorted. cbn [fst] in Hin, Hsorted.
    apply StronglySorted_inv in Hsorted as [_ Hlt].
    apply elem_of_cons in Hin as [->|Hin]; [done|].
    eapply Forall_forall in Hlt; [|exact Hin]. lia.
Qed.

End Dates.

Lemma headings_are_the_dates_of_the_entries_witness :
  let dates := heading_dates FirstDerivative
                 (emitted (fetch_glucose_data mergesort_argsort two_days fresh)) in
  StronglySorted Z.lt dates
  ∧ ∀ d, d ∈ dates
         ↔ ∃ e t, e ∈ two_days ∧ e_date e = Some t ∧ t `div` ms_per_day = d.
Proof.
  apply (headings_are_the_dates_of_the_entries mergesort_argsort mergesort_argsort_sorts
           two_days fresh FirstDerivative).
  - left. by eexists.
  - repeat constructor; unfold datetime_bound_ms; cbn; lia.
  - left. by eexists.
Defined.

Lemma response_without_glucose_values_witness :
  let entries := [Entry (Some 86400000) None; Entry (Some 300000) None] in
  ∃ d, emitted (fetch_glucose_data mergesort_argsort entries fresh)
       = [st_subheader Glucose d; st_error (KeyError c_sgv)]
       ∧ (∃ e t, e ∈ entries ∧ e_date e = Some t ∧ t `div` ms_per_day = d)
       ∧ ∀ e t, e ∈ entries → e_date e = Some t → d ≤ t `div` ms_per_day.
Proof.
  apply (response_without_glucose_values mergesort_argsort mergesort_argsort_sorts
           [Entry (Some 86400000) None; Entry (Some 300000) None] fresh).
  - left. by eexists.
  - repeat constructor; unfold datetime_bound_ms; cbn; lia.
  - by repeat constructor.
Defined.

(** * The requested days and the days shown *)

Section RequestedDays.
Variable requests_get : request → response.
Variable argsort : list Z → list nat.

(** X12: in a time zone with a fixed offset of at most a day from UTC, and
    with a server that returns only entries dated within the range asked
    for, every date in a heading lies between the day before the start
    date and the day after the end date; east of Greenwich it does not
    pass the end date, west of Greenwich it does not precede the start
    date. *)
Theorem shown_dates_lie_around_the_requested_days (utc_offset_s : Z) (inp : sidebar)
    (c : chart) (d : Z) :
  -86400 ≤ utc_offset_s ≤ 86400 →
  (∀ code entries,
     requests_get (entries_request (mktime_fixed utc_offset_s) inp)
     = Response code (Some entries) →
     in_range (entries_request (mktime_fixed utc_offset_s) inp) entries) →
  st_shown (st_subheader c d)
    ∈ page (mktime_fixed utc_offset_s) requests_get argsort inp →
  start_date inp - 1 ≤ d ≤ end_date inp + 1
  ∧ (0 ≤ utc_offset_s → d ≤ end_date inp)
  ∧ (utc_offset_s ≤ 0 → start_date inp ≤ d).
Proof.
  intros Hoff Hserver Hin. rewrite page_cases in Hin.
  destruct (fetch_cases (mktime_fixed utc_offset_s) requests_get argsort inp)
    as (rest & Hfetch & _ & Hrest).
  rewrite Hfetch in Hin.
  assert (st_shown (st_subheader c d) ∈ rest) as Hin'.
  { destruct (button inp), (truthy (base_url inp)), (truthy (secret_text inp));
      try (by apply list_elem_of_singleton in Hin).
    by apply elem_of_cons in Hin as [?|?]. }
  destruct (Hrest _ Hin') as (code & entries & Hresp & _ & ->).
  apply list_elem_of_fmap in Hin' as (ev & [= <-] & Hev).
  apply heading_date_of_entry in Hev as (e & t & He & Ht & <-).
  specialize (Hserver code entries Hresp). unfold in_range in Hserver.
  eapply Forall_forall in Hserver; [|exact He]. specialize (Hserver t Ht).
  cbn [entries_request find_date_gte find_date_lte] in Hserver.
  unfold start_date_unix, end_date_unix, mktime_fixed in Hserver.
  unfold ms_per_day.
  pose proof (Z.div_mod t 86400000 ltac:(lia)) as Hdm.
  pose proof (Z.mod_pos_bound t 86400000 ltac:(lia)) as Hmod.
  lia.
Qed.

End RequestedDays.

Lemma shown_dates_lie_around_the_requested_days_witness :
  0 - 1 ≤ 1 ≤ 1 + 1 ∧ (0 ≤ 0 → 1 ≤ 1) ∧ (0 ≤ 0 → 0 ≤ 1).
Proof.
  apply (shown_dates_lie_around_the_requested_days (serves 200 two_days)
           mergesort_argsort 0 sample_sidebar Glucose 1).
  - lia.
  - intros code entries [= <- <-]. unfold in_range, two_days, reading.
    repeat apply Forall_cons_2; [| | |apply Forall_nil_2]; cbn [e_date];
      intros t [= <-]; vm_compute; split; discriminate.
  - vm_compute. do 7 right. left.
Defined.

(** East of Greenwich the day before the start date does appear: with
    the clock one hour ahead of UTC, a reading taken half an hour after
    local midnight of the start date is charted under the previous date. *)
Example heading_before_the_start_date :
  page (mktime_fixed 3600) (serves 200 [reading 171000000 100]) mergesort_argsort
       (Sidebar "https://ns.example" API_Secret "s3cret" 2 2 true)
  !! 1%nat = Some (st_shown (st_subheader Glucose 1))
  ∧ in_range (entries_request (mktime_fixed 3600)
                (Sidebar "https://ns.example" API_Secret "s3cret" 2 2 true))
             [reading 171000000 100].
Proof.
  split; [by vm_compute|]. unfold in_range, reading.
  apply Forall_singleton. cbn [e_date]. intros t [= <-]. vm_compute. split; discriminate.
Qed.

(** * More on the statistics *)













(** * More on the derivative columns *)

Section ClosedForms.
Implicit Types (sgv xs : list cell) (i j : nat) (v : nat → Q).





(** A missing cell makes its own difference and the next one undefined. *)
Lemma diff_nan xs i j c :
  xs !! j = Some None → (j ≤ i ≤ S j)%nat → diff xs !! i = Some c → c = None.
Proof.
  intros Hj Hij Hc.
  assert (i < length xs)%nat as Hlen.
  { apply lookup_lt_Some in Hc. by rewrite length_diff in Hc. }
  destruct i as [|i]; [by apply diff_lookup_0 in Hc|].
  destruct (lookup_lt_is_Some_2 xs i) as [y Hy]; [lia|].
  destruct (lookup_lt_is_Some_2 xs (S i)) as [x Hx]; [lia|].
  rewrite (diff_lookup_S _ _ _ _ Hy Hx) in Hc. injection Hc as <-.
  destruct (decide (i = j)) as [->|Hne].
  - rewrite Hy in Hj. injection Hj as ->. apply cell_sub_nan_r.
  - assert (S i = j) as <- by lia. rewrite Hx in Hj. by injection Hj as ->.
Qed.

Lemma lookup_defined xs i : (i < length xs)%nat → ∃ c, xs !! i = Some c.
Proof. apply lookup_lt_is_Some_2. Qed.

Lemma sgv_diff_smooth_nan sgv i j c :
  sgv !! j = Some None → (j ≤ i ≤ j + 4)%nat →
  sgv_diff_smooth sgv !! i = Some c → c = None.
Proof.
  intros Hj Hij Hc. unfold sgv_diff_smooth, sgv_diff in Hc.
  assert (i < length sgv)%nat as Hlen.
  { apply lookup_lt_Some in Hc. by rewrite length_rolling_mean, length_diff in Hc. }
  set (j' := Nat.min i (S j)).
  destruct (lookup_defined (diff sgv) j') as [d Hd]; [rewrite length_diff; lia|].
  pose proof (diff_nan sgv j' j d Hj ltac:(lia) Hd) as ->.
  eapply (rolling_mean_nan 4 _ i j'); [done|lia|done].
Qed.

Lemma sgv_diff2_nan sgv i j c :
  sgv !! j = Some None → (j ≤ i ≤ j + 5)%nat →
  sgv_diff2 sgv !! i = Some c → c = None.
Proof.
  intros Hj Hij Hc. unfold sgv_diff2 in Hc.
  assert (i < length sgv)%nat as Hlen.
  { apply lookup_lt_Some in Hc.
    by rewrite length_diff, (proj1 (proj2 (length_derived sgv))) in Hc. }
  set (j' := Nat.min i (j + 4)).
  destruct (lookup_defined (sgv_diff_smooth sgv) j') as [s Hs].
  { rewrite (proj1 (proj2 (length_derived sgv))). lia. }
  pose proof (sgv_diff_smooth_nan sgv j' j s Hj ltac:(lia) Hs) as ->.
  eapply (diff_nan _ i j'); [done|lia|done].
Qed.

(** X17: an entry without a glucose value is charted as a gap, and the gap
    widens with each derivative: the smoothed first derivative is
    undefined at its position and the four after it, the smoothed second
    derivative at its position and the eight after it. *)
Theorem missing_value_blanks_the_derivatives sgv i j c :
  sgv !! j = Some None →
  ((j ≤ i ≤ j + 4)%nat → sgv_diff_smooth sgv !! i = Some c → c = None)
  ∧ ((j ≤ i ≤ j + 8)%nat → sgv_diff2_smooth sgv !! i = Some c → c = None).
Proof.
  intros Hj. split; [by apply sgv_diff_smooth_nan|].
  intros Hij Hc. unfold sgv_diff2_smooth in Hc.
  assert (i < length sgv)%nat as Hlen.
  { apply lookup_lt_Some in Hc.
    by rewrite length_rolling_mean, (proj1 (proj2 (proj2 (length_derived sgv)))) in Hc. }
  set (j' := Nat.min i (j + 5)).
  destruct (lookup_defined (sgv_diff2 sgv) j') as [d Hd].
  { rewrite (proj1 (proj2 (proj2 (length_derived sgv)))). lia. }
  pose proof (sgv_diff2_nan sgv j' j d Hj ltac:(lia) Hd) as ->.
  eapply (rolling_mean_nan 4 _ i j'); [done|lia|done].
Qed.

End ClosedForms.






Lemma missing_value_blanks_the_derivatives_witness :
  let sgv := float_column [Some 100; None; Some 95; Some 110; Some 108; Some 120; Some 115] in
  ((1 ≤ 5 ≤ 1 + 4)%nat → sgv_diff_smooth sgv !! 5%nat = Some None → @None Q = None)
  ∧ ((1 ≤ 5 ≤ 1 + 8)%nat → sgv_diff2_smooth sgv !! 5%nat = Some None → @None Q = None).
Proof.
  apply (missing_value_blanks_the_derivatives
           (float_column [Some 100; None; Some 95; Some 110; Some 108; Some 120; Some 115])
           5 1 None).
  reflexivity.
Defined.


(** * The output as a function of the sorted entries *)

Lemma positions_fmap {A B} (f : A → B) (P : B → Prop) `{!∀ x, Decision (P x)}
    (l : list A) :
  positions P (f <$> l) = positions (λ x, P (f x)) l.
Proof.
  unfold positions. rewrite length_fmap. apply filter_ext_Forall, Forall_forall.
  intros i _. rewrite list_lookup_fmap. by destruct (l !! i).
Qed.

Lemma fmap_filter_is_Some {A} (f : A → option Z) (l : list A) :
  f <$> filter (λ x, is_Some (f x)) l = Some <$> omap f l.
Proof.
  induction l as [|x l IH]; [done|]. rewrite filter_cons. cbn [omap list_omap].
  destruct (f x) as [t|] eqn:Hx.
  - rewrite decide_True by eauto. rewrite !fmap_cons, Hx. cbn. by f_equal.
  - rewrite decide_False by (by intros [? ?]). done.
Qed.



Section SortedRows.
Variable argsort : list Z → list nat.
Implicit Types (entries rows : list entry) (k : Z).

(** The sorted frame lists the entries with a timestamp in sorted order,
    then those without one. *)
Lemma sorted_frame_rows entries :
  take_rows (nargsort argsort (e_date <$> entries)) entries
  = sorted_rows argsort entries ++ filter (λ e, e_date e = None) entries.
Proof.
  unfold nargsort, sorted_rows. rewrite take_rows_app, omap_id_fmap. f_equal.
  - rewrite take_rows_take_rows.
    2:{ rewrite <- (length_fmap e_date). apply positions_bound. }
    by rewrite positions_fmap, take_rows_positions.
  - by rewrite positions_fmap, take_rows_positions.
Qed.

Lemma sorted_rows_dates entries :
  e_date <$> sorted_rows argsort entries = Some <$> sorted_timestamps argsort entries.
Proof.
  unfold sorted_rows, sorted_timestamps.
  by rewrite <- !take_rows_fmap, fmap_filter_is_Some.
Qed.

Lemma rows_of_day_sorted_frame entries k :
  rows_of_day k (take_rows (nargsort argsort (e_date <$> entries)) entries)
  = rows_of_day k (sorted_rows argsort entries).
Proof.
  rewrite sorted_frame_rows. unfold rows_of_day. rewrite filter_app.
  rewrite (filter_none _ (filter _ entries)); [apply app_nil_r|].
  apply Forall_forall. intros e [He _]%list_elem_of_filter. unfold day_of.
  by rewrite He.
Qed.

Lemma keys_sorted_frame entries :
  group_keys (day_of <$> take_rows (nargsort argsort (e_date <$> entries)) entries)
  = group_keys (day_of <$> sorted_rows argsort entries).
Proof.
  unfold group_keys. rewrite !omap_id_fmap, sorted_frame_rows, omap_app.
  assert (omap day_of (filter (λ e, e_date e = None) entries) = []) as ->;
    [|by rewrite app_nil_r].
  induction entries as [|e entries IH]; [done|]. rewrite filter_cons.
  destruct (decide (e_date e = None)) as [He|He]; [|done].
  cbn. unfold day_of at 1. by rewrite He.
Qed.

(** What is shown for a response that has some timestamp, all of them
    representable: the charts of each date, from the sorted entries of
    that date, then the statistics. *)
Lemma rendered_by_rows entries :
  Exists (λ e, is_Some (e_date e)) entries → representable entries →
  rendered argsort entries
  = let rows := sorted_rows argsort entries in
    let keys := group_keys (day_of <$> rows) in
    if decide (Exists (λ e, is_Some (e_sgv e)) entries) then
      (keys ≫= charts_of_day rows)
      ++ statistics_events
           (take_rows (nargsort argsort (e_date <$> entries)) (e_sgv <$> entries))
    else
      match keys with
      | [] => [st_subheader_statistics]
      | k :: _ => [st_subheader Glucose k]
      end ++ [st_error (KeyError c_sgv)].
Proof.
  intros Hdate Hrep. unfold rendered.
  destruct entries as [|e0 entries]; [by apply Exists_nil in Hdate|].
  set (es := e0 :: entries) in *.
  rewrite (series_frame_ok argsort es Hdate Hrep).
  set (nargs := nargsort argsort (e_date <$> es)).
  set (E := take_rows nargs es).
  assert (groupby_date (sorted_frame argsort es (e_date <$> es))
          = inr ((λ k, (k, take_frame (positions (λ e, day_of e = Some k) E)
                             (sorted_frame argsort es (e_date <$> es))))
                 <$> group_keys (day_of <$> E))) as ->.
  { unfold groupby_date. cbn [sorted_frame col_date set_date].
    fold nargs. unfold dt_date. rewrite take_rows_fmap, <- list_fmap_compose.
    fold E. f_equal. apply list_fmap_ext. intros _ k _. f_equal. f_equal.
    unfold group_positions.
    exact (positions_fmap _ (λ c : option Z, c = Some k) E). }
  unfold E, nargs. rewrite keys_sorted_frame. cbn zeta.
  set (keys := group_keys (day_of <$> sorted_rows argsort es)).
  rewrite sorted_frame_sgv.
  destruct (decide (Exists (λ e, is_Some (e_sgv e)) es)) as [Hsgv|Hsgv].
  - rewrite (json_column_is_Some _ _ Hsgv). cbn [fmap option_fmap option_map].
    f_equal. induction keys as [|k keys IH]; [done|].
    rewrite fmap_cons. cbn [mbind list_bind]. f_equal; [|apply IH].
    unfold group_events. cbn [fst snd]. rewrite group_col_dateTime, group_col_sgv.
    rewrite (json_column_is_Some _ _ Hsgv). cbn [fmap option_fmap option_map default].
    unfold charts_of_day.
    rewrite <- (rows_of_day_sorted_frame es k). unfold rows_of_day.
    rewrite !take_rows_fmap. by rewrite take_rows_positions.
  - assert (json_column e_sgv es = None) as ->.
    { unfold json_column. destruct (existsb _ es) eqn:Ex; [|done]. destruct Hsgv.
      apply existsb_exists in Ex as (e & He%list_elem_of_In & Hf%bool_decide_eq_true).
      apply Exists_exists. eauto. }
    cbn [fmap option_fmap option_map]. by destruct keys.
Qed.

End SortedRows.


Section OrderIndependence.
Variables argsort argsort' : list Z → list nat.
Hypothesis argsort_sorts : sorts argsort.
Hypothesis argsort'_sorts : sorts argsort'.
Implicit Types (entries : list entry).




End OrderIndependence.


(** * The time axis *)

Lemma series_frame_representable argsort (entries : list entry) df :
  series_frame argsort entries = inr df → representable entries.
Proof.
  intros (ms & Hms & Hdt & _)%series_frame_inv.
  apply json_column_Some in Hms as ->.
  unfold to_datetime in Hdt. destruct (forallb _ _) eqn:E; [|done].
  rewrite forallb_forall in E. apply Forall_forall. intros e He.
  specialize (E (e_date e)). destruct (e_date e) as [t|] eqn:Ht; [|done].
  rewrite bool_decide_eq_true in E. apply E.
  apply list_elem_of_In, list_elem_of_fmap. by exists e.
Qed.

(** Selecting rows of a list sorted by time leaves it sorted. *)
Lemma filter_sorted_dates (P : entry → Prop) `{!∀ e, Decision (P e)}
    (rows : list entry) (ts : list Z) :
  e_date <$> rows = Some <$> ts → StronglySorted Z.le ts →
  ∃ ts', e_date <$> filter P rows = Some <$> ts' ∧ StronglySorted Z.le ts'
         ∧ ts' ⊆ ts.
Proof.
  revert ts. induction rows as [|e rows IH]; intros ts Hdates Hsorted.
  { exists []. split; [done|]. split; [constructor|]. by intros t ?%elem_of_nil. }
  destruct ts as [|t ts]; [done|]. rewrite !fmap_cons in Hdates.
  injection Hdates as Ht Hdates. apply StronglySorted_inv in Hsorted as [Hsorted Hle].
  destruct (IH ts Hdates Hsorted) as (ts' & Hts' & Hs' & Hsub).
  rewrite filter_cons. case_decide.
  - exists (t :: ts'). rewrite !fmap_cons, Ht, Hts'. split; [done|]. split.
    + constructor; [done|]. apply Forall_forall. intros t' Ht'%Hsub.
      eapply Forall_forall in Hle; [|exact Ht']. done.
    + intros t' [->|Ht']%elem_of_cons; [left|right; by apply Hsub].
  - exists ts'. split; [done|]. split; [done|]. intros t' Ht'. right. by apply Hsub.
Qed.

Section TimeAxis.
Variable argsort : list Z → list nat.
Hypothesis argsort_sorts : sorts argsort.

(** X20: in every chart the points are in time order: the time axis holds
    no missing time and its instants never decrease from one point to the
    next. *)
Theorem chart_times_ascend (entries : list entry) (σ : globals) (c : chart)
    (x : list (option Z)) (y : list cell) :
  st_pyplot c x y ∈ emitted (fetch_glucose_data argsort entries σ) →
  ∃ ts, x = Some <$> ts ∧ StronglySorted Z.le ts.
Proof.
  rewrite (proj1 (fetch_run argsort entries σ)). intros Hin.
  cut (∃ ts, x = Some <$> ts ∧ StronglySorted Z.le ts
             ∧ ts ⊆ sorted_timestamps argsort entries).
  { intros (ts & Hx & Hs & _). eauto. }
  destruct (pyplot_inv _ _ _ _ _ Hin) as (df & groups & _ & _ & Hdf & _ & _ & [sgv Hsgv] & _).
  pose proof (series_frame_representable _ _ _ Hdf) as Hrep.
  destruct (series_frame_sorted_frame argsort entries df Hdf) as [-> Hdate].
  assert (Exists (λ e, is_Some (e_sgv e)) entries) as Hex.
  { rewrite sorted_frame_sgv in Hsgv. unfold json_column in Hsgv.
    destruct (existsb _ entries) eqn:E; [|done].
    apply existsb_exists in E as (e & He%list_elem_of_In & Hf%bool_decide_eq_true).
    apply Exists_exists. eauto. }
  rewrite (rendered_by_rows argsort entries Hdate Hrep) in Hin. cbn zeta in Hin.
  rewrite decide_True in Hin by done.
  apply elem_of_app in Hin as [Hin|Hin].
  2:{ unfold statistics_events in Hin.
      repeat (apply elem_of_cons in Hin as [Hin|Hin]; [done|]).
      by apply elem_of_nil in Hin. }
  apply list_elem_of_bind in Hin as (k & Hev & _).
  assert (x = e_date <$> rows_of_day k (sorted_rows argsort entries)) as ->.
  { unfold charts_of_day, day_events in Hev.
    repeat (apply elem_of_cons in Hev as [Hev|Hev]; [by simplify_eq|]).
    by apply elem_of_nil in Hev. }
  apply (filter_sorted_dates _ _ (sorted_timestamps argsort entries)).
  - apply sorted_rows_dates.
  - by apply sorted_timestamps_sorted.
Qed.

End TimeAxis.

Lemma chart_times_ascend_witness :
  ∃ ts, [Some 0; Some 300000] = Some <$> ts ∧ StronglySorted Z.le ts.
Proof.
  apply (chart_times_ascend mergesort_argsort mergesort_argsort_sorts two_days fresh
           SecondDerivative [Some 0; Some 300000] [None; None]).
  vm_compute. do 5 right. left.
Defined.
